(** * Jenkins charm: plugin management (lib/charms/layer/jenkins/plugins.py)

    A shallow embedding of the [Plugins] class: the dependency expansion
    and compatibility filter that plan an installation, the per-plugin
    install decision, the reconciliation of unlisted plugin files and the
    construction of the update-center client.

    Python values are modelled as the code has them: [str] as [string]
    (one character per code point below 256), lists as [list string], sets
    as [gset string], the plugin directory as a finite map from paths to
    the kind of the entry found there.  The update center
    (jenkins_plugin_manager) and the Jenkins API are external
    collaborators and enter as records of operations. *)

From Stdlib Require Import String Ascii.
From stdpp Require Import gmap strings list fin_maps.

Set Warnings "-clear-no-such-hyp".

Local Open Scope string_scope.
Local Open Scope nat_scope.
Local Open Scope list_scope.

(** ** Python built-ins used by the module *)

Module Py.

(** Values that flow through truthiness tests in the module: the result
    of [Api().get_plugin_version] ([False] or a version) and of
    [download_plugin] (a path, a falsy value, or [None] when the
    download was skipped). *)
Inductive pyval :=
| PyNone
| PyFalse
| PyStr (s : string).

Definition truthy (v : pyval) : bool :=
  match v with
  | PyNone | PyFalse => false
  | PyStr s => negb (String.eqb s "")
  end.

(** [v != s] for a string [s]. *)
Definition ne_str (v : pyval) (s : string) : bool :=
  match v with
  | PyStr s' => negb (String.eqb s' s)
  | _ => true
  end.

(** ["%s" % v] *)
Definition str (v : pyval) : string :=
  match v with
  | PyNone => "None"
  | PyFalse => "False"
  | PyStr s => s
  end.

(** [str.isspace] on one character. *)
Definition isspace (c : ascii) : bool :=
  let n := N_of_ascii c in
  ((9 <=? n) && (n <=? 13) || (28 <=? n) && (n <=? 32)
   || (n =? 133) || (n =? 160))%N.

(** [s.split()]: maximal runs of non-whitespace characters. [cur] is
    the word being read. *)
Fixpoint split_go (cur : string) (s : string) : list string :=
  match s with
  | EmptyString => if String.eqb cur "" then [] else [cur]
  | String c s' =>
      if isspace c
      then (if String.eqb cur "" then split_go "" s'
            else cur :: split_go "" s')
      else split_go (cur +:+ String c "") s'
  end.

Definition split (s : string) : list string := split_go "" s.

(** [sep.join(l)] *)
Fixpoint join (sep : string) (l : list string) : string :=
  match l with
  | [] => ""
  | [x] => x
  | x :: l' => x +:+ sep +:+ join sep l'
  end.

(** [s.endswith(suffix)] and its tuple form. *)
Definition endswith (s suffix : string) : bool :=
  bool_decide (list_ascii_of_string suffix `suffix_of` list_ascii_of_string s).

Definition endswith_any (s : string) (suffixes : list string) : bool :=
  existsb (endswith s) suffixes.

(** The iterables handed to the planner: the [itertools.chain] built by
    [install], the list built from the configuration, and the sets the
    update center returns. *)
Inductive iterable :=
| Chain (l : list string)
| PyList (l : list string)
| PySet (s : gset string).

(** The elements produced by one [for] loop over the value. *)
Definition iterate (v : iterable) : list string :=
  match v with
  | Chain l | PyList l => l
  | PySet s => elements s
  end.

(** The value left behind by that loop: a chain is an iterator and is
    exhausted, lists and sets can be run through again. *)
Definition exhaust (v : iterable) : iterable :=
  match v with
  | Chain _ => Chain []
  | _ => v
  end.

(** [v == s] where [s] is a set: a chain compares by identity, a list
    is never equal to a set, two sets are compared by value. *)
Definition eq_set (v : iterable) (s : gset string) : bool :=
  match v with
  | PySet s' => bool_decide (s' = s)
  | _ => false
  end.

(** [str(l)] for a list of strings, over a given [repr] of [str]. *)
Definition str_list (repr : string → string) (l : list string) : string :=
  "[" +:+ join ", " (map repr l) +:+ "]".

End Py.

Import Py.

(** ** External collaborators *)

Inductive exn :=
| HTTPError
| URLError
| PluginSiteError
| OtherError (msg : string).

(** [OutOfFuel] is not a Python outcome: it marks a run of the model that
    used up the recursion budget given to the planner. *)
Inductive outcome (A : Type) :=
| Ok (a : A)
| Raise (e : exn)
| OutOfFuel.
Arguments Ok {A} a.
Arguments Raise {A} e.
Arguments OutOfFuel {A}.

Inductive kind := File | Dir.

Global Instance kind_eq_dec : EqDecision kind.
Proof. solve_decision. Defined.

Record plugin_data := {
  version : string;
  requiredCore : string
}.

(** jenkins_plugin_manager.plugin.UpdateCenter, as far as the module uses
    it.  [get_plugins] receives the names its argument yields and returns
    a set; [download_plugin plugin dst] acts on the file system and either
    returns a value or raises. *)
Record UpdateCenter := {
  get_plugins : list string → gset string;
  get_plugin_data : string → plugin_data;
  _check_min_core_version : string → string → bool;
  download_plugin :
    string → string → gmap string kind → outcome pyval * gmap string kind
}.

(** charms.layer.jenkins.api.Api: the version of the running Jenkins and
    the installed version of a plugin ([False] when it is not installed). *)
Record Api := {
  api_version : string;
  get_plugin_version : string → pyval
}.

(** The plugins that are required for Jenkins to work. *)
Definition REQUIRED_PLUGINS : list string := ["instance-identity"].

(** ** Planning: dependency expansion and compatibility filter *)

Section Planning.

Variable uc : UpdateCenter.
Variable api : Api.

Definition _get_plugin_info (plugin : string) : plugin_data :=
  get_plugin_data uc plugin.

Definition _get_latest_version (plugin : string) : string :=
  version (_get_plugin_info plugin).

Definition _get_required_jenkins (plugin : string) : string :=
  requiredCore (_get_plugin_info plugin).

(** Exclude plugins incompatible with the jenkins version.  The
    argument is run through twice: once by the loop that collects the
    exclusions, once by the comprehension that keeps the rest. *)
Definition _exclude_incompatible_plugins (plugins : iterable)
  : list string * list string :=
  let jenkins_version := api_version api in
  let excluded_plugins :=
    filter (λ plugin,
              _check_min_core_version uc jenkins_version
                (_get_required_jenkins plugin) = false)
           (iterate plugins) in
  let plugins' :=
    filter (λ plugin, plugin ∉ excluded_plugins)
           (iterate (exhaust plugins)) in
  (plugins', excluded_plugins).

(** Get all plugins needed to be installed.  The recursion of the
    source is bounded here by [fuel]; [None] means the budget ran out. *)
Fixpoint _get_plugins_to_install (fuel : nat) (plugins : iterable)
  : option (list string * list string) :=
  match fuel with
  | O => None
  | S fuel' =>
      let plugins_and_dependencies := get_plugins uc (iterate plugins) in
      if eq_set plugins plugins_and_dependencies
      then Some (_exclude_incompatible_plugins (exhaust plugins))
      else _get_plugins_to_install fuel' (PySet plugins_and_dependencies)
  end.

End Planning.

(** [plugins or ""] for an argument that is [None] or a string. *)
Definition or_empty (plugins : option string) : string :=
  match plugins with
  | Some s => if truthy (PyStr s) then s else ""
  | None => ""
  end.

(** The iterable [install] hands to the planner:
    [itertools.chain(REQUIRED_PLUGINS, (plugins or "").split())]. *)
Definition requested (plugins : option string) : iterable :=
  Chain (REQUIRED_PLUGINS ++ split (or_empty plugins)).

(** ** The world the module acts on *)

Inductive event :=
| EvLog (msg : string)
| EvMkdir (path : string)
| EvChownr (path : string)
| EvDownload (plugin dst : string)
| EvRemove (path : string)
| EvRestart.

Global Instance event_eq_dec : EqDecision event.
Proof. solve_decision. Defined.

(** [fs] maps a path to the kind of entry found there, [environ] is
    [os.environ], [trace] lists the calls made to the collaborators, in
    the order they were made. *)
Record world := {
  fs : gmap string kind;
  environ : gmap string string;
  trace : list event
}.

Definition emit (e : event) (w : world) : world :=
  {| fs := fs w; environ := environ w; trace := trace w ++ [e] |}.

Definition set_fs (f : gmap string kind) (w : world) : world :=
  {| fs := f; environ := environ w; trace := trace w |}.

Definition set_environ (env : gmap string string) (w : world) : world :=
  {| fs := fs w; environ := env; trace := trace w |}.

(** Computations that act on the world and may raise. *)
Definition M (A : Type) : Type := world → outcome A * world.

Definition ret {A} (a : A) : M A := λ w, (Ok a, w).

Definition raise {A} (e : exn) : M A := λ w, (Raise e, w).

Definition bind {A B} (m : M A) (k : A → M B) : M B :=
  λ w, match m w with
       | (Ok a, w') => k a w'
       | (Raise e, w') => (Raise e, w')
       | (OutOfFuel, w') => (OutOfFuel, w')
       end.

(** [try: m except Exception as e: h e] *)
Definition try_except {A} (m : M A) (h : exn → M A) : M A :=
  λ w, match m w with
       | (Raise e, w') => h e w'
       | r => r
       end.

Global Instance M_ret : MRet M := @ret.
Global Instance M_bind : MBind M := λ A B k m, bind m k.

(** [for x in l: acc = body x acc] *)
Fixpoint for_each {A B} (l : list A) (acc : B) (body : A → B → M B) : M B :=
  match l with
  | [] => ret acc
  | x :: l' => acc' ← body x acc; for_each l' acc' body
  end.

Definition log (msg : string) : M unit := λ w, (Ok tt, emit (EvLog msg) w).

Definition call (e : event) : M unit := λ w, (Ok tt, emit e w).

(** [os.path.isfile(path)] *)
Definition isfile (path : string) : M bool :=
  λ w, (Ok (bool_decide (fs w !! path = Some File)), w).

(** [os.remove(path)]: fails unless [path] is a regular file. *)
Definition os_remove (path : string) : M unit :=
  λ w, match fs w !! path with
       | Some File => (Ok tt, emit (EvRemove path) (set_fs (delete path (fs w)) w))
       | _ => (Raise (OtherError "OSError"), w)
       end.

(** [os.environ[k] = v] and [os.environ.pop(k, None)] *)
Definition setenv (k v : string) : M unit :=
  λ w, (Ok tt, set_environ (<[k := v]> (environ w)) w).

Definition popenv (k : string) : M unit :=
  λ w, (Ok tt, set_environ (delete k (environ w)) w).

(** Lifting the planner's budget into the outcome. *)
Definition of_fuel {A} (o : option A) : M A :=
  λ w, match o with
       | Some a => (Ok a, w)
       | None => (OutOfFuel, w)
       end.

(** The charm configuration, [hookenv.config()]. *)
Record config := {
  proxy_hostname : string;
  proxy_port : string;
  proxy_username : string;
  proxy_password : string;
  plugins_site : string;
  cfg_plugins : string;
  plugins_auto_update : bool;
  remove_unlisted_plugins : string
}.

(** ** glob over the plugin directory *)

(** [s] without the prefix [p], when it starts with it. *)
Fixpoint strip_prefix (p s : string) : option string :=
  match p, s with
  | EmptyString, _ => Some s
  | String a p', String b s' =>
      if Ascii.eqb a b then strip_prefix p' s' else None
  | String _ _, EmptyString => None
  end.

Definition has_slash (s : string) : bool :=
  bool_decide ("/"%char ∈ list_ascii_of_string s).

(** [fnmatch(name, "*.[h|j]pi")] for a directory entry, with glob's rule
    that a wildcard does not match a leading dot. *)
Definition fnmatch_plugin (name : string) : bool :=
  negb (String.prefix "." name)
  && (endswith name ".hpi" || endswith name ".|pi" || endswith name ".jpi").

Definition in_glob (dir path : string) : bool :=
  match strip_prefix (dir +:+ "/") path with
  | Some name => negb (has_slash name) && fnmatch_plugin name
  | None => false
  end.

(** The paths [glob.glob("%s/*.[h|j]pi" % dir)] finds in a file system,
    for a directory name without glob metacharacters: the entries of any
    kind directly under [dir] whose name matches. *)
Definition plugin_files (dir : string) (f : gmap string kind) : gset string :=
  filter (λ path, in_glob dir path = true) (dom f).

(** [set(glob.glob("%s/*.[h|j]pi" % dir))] *)
Definition glob_plugins (dir : string) : M (gset string) :=
  λ w, (Ok (plugin_files dir (fs w)), w).

(** ** Installing and removing plugins *)

Section Install.

Variable uc : UpdateCenter.
Variable api : Api.
Variable cfg : config.
(** [paths.PLUGINS], the plugin directory. *)
Variable PLUGINS : string.
(** Python's [repr] of a [str], used when a list is formatted. *)
Variable repr : string → string.

(** [self.update_center.download_plugin(plugin, paths.PLUGINS,
    with_version=False)] *)
Definition download (plugin : string) : M pyval :=
  λ w, let w1 := emit (EvDownload plugin PLUGINS) w in
       let '(r, fs') := download_plugin uc plugin PLUGINS (fs w1) in
       (r, set_fs fs' w1).

(** Verify if the plugin is not installed before installing it or if it
    needs an update.  Falling off the end returns [None]. *)
Definition _install_plugin (plugin : string) (update : bool) : M pyval :=
  let plugin_version := get_plugin_version api plugin in
  let latest_version := _get_latest_version uc plugin in
  if negb (truthy plugin_version)
     || (update && ne_str plugin_version latest_version)
  then
    log ("Installing plugin " +:+ plugin +:+ "-" +:+ latest_version);;
    download plugin
  else
    log ("Plugin " +:+ plugin +:+ "-" +:+ str plugin_version
         +:+ " already installed");;
    mret PyNone.

(** Install the plugins with the given names. *)
Definition _install_plugins (plugins : list string) : M (gset string) :=
  log ("Installing plugins (" +:+ join " " plugins +:+ ")");;
  let update := plugins_auto_update cfg in
  plugin_paths ←
    for_each plugins (∅ : gset string)
      (λ plugin plugin_paths,
         plugin_path ← _install_plugin plugin update;
         match plugin_path with
         | PyNone => mret plugin_paths
         | _ =>
             if truthy plugin_path
             then mret ({[str plugin_path]} ∪ plugin_paths)
             else log ("Failed to download " +:+ plugin);;
                  mret plugin_paths
         end);
  (* Make sure that the plugin directory is owned by jenkins *)
  call (EvChownr PLUGINS);;
  mret plugin_paths.

(** Remove the plugin at the given path. *)
Definition _remove_plugin (path : string) : M unit :=
  is_file ← isfile path;
  if negb is_file then mret tt
  else
    log ("Deleting unlisted plugin '" +:+ path +:+ "'");;
    os_remove path.

(** Remove the plugins at the given paths. *)
Definition _remove_plugins (paths : gset string) : M unit :=
  for_each (elements paths) tt (λ path _, _remove_plugin path).

(** [tuple(map(lambda x: "/{}.jpi".format(x), configured_plugins))]:
    [configured_plugins] is the pair returned by the planner, and the
    [map] runs over its two components, each of them a list. *)
Definition plugin_file_names (configured_plugins : list string * list string)
  : list string :=
  map (λ x, "/" +:+ str_list repr x +:+ ".jpi")
      [configured_plugins.1; configured_plugins.2].

(** [set(filter(lambda x: x.endswith(plugin_file_names), existing_plugins))] *)
Definition listed_plugins (names : list string) (existing_plugins : gset string)
  : gset string :=
  filter (λ x, endswith_any x names = true) existing_plugins.

Definition unlisted_message (unlisted_plugins : gset string) : string :=
  "Unlisted plugins: (" +:+ join ", " (elements unlisted_plugins)
  +:+ ") Not removed. Set "
  +:+ "remove-unlisted-plugins to 'yes' to clear them "
  +:+ "away.".

(** Install the given plugins, optionally removing unlisted ones.
    [plugins] is a whitespace-separated list of plugins to install. *)
Definition install (fuel : nat) (plugins : option string)
  : M (gset string * list string) :=
  log "Starting plugins installation process";;
  let plugins := requested plugins in
  '(plugins, incompatible_plugins) ←
    of_fuel (_get_plugins_to_install uc api fuel plugins);
  (if negb (length incompatible_plugins =? 0)%nat
   then log ("The following plugins require a higher jenkins version"
             +:+ " and were not installed: ("
             +:+ join " " incompatible_plugins +:+ ")")
   else mret tt);;
  configured_plugins ←
    of_fuel (_get_plugins_to_install uc api fuel
               (PyList (split (cfg_plugins cfg))));
  call (EvMkdir PLUGINS);;
  existing_plugins ← glob_plugins PLUGINS;
  try_except (_install_plugins plugins)
    (λ e, log "Plugin installation failed, check logs for details";;
          raise e);;
  let plugin_file_names := plugin_file_names configured_plugins in
  let installed_plugins := listed_plugins plugin_file_names existing_plugins in
  let unlisted_plugins := existing_plugins ∖ installed_plugins in
  (if negb (bool_decide (unlisted_plugins = ∅))
   then
     if String.eqb (remove_unlisted_plugins cfg) "yes"
     then _remove_plugins unlisted_plugins
     else log (unlisted_message unlisted_plugins)
   else mret tt);;
  (* Restarting jenkins to pickup configuration changes *)
  call EvRestart;;
  mret (installed_plugins, incompatible_plugins).

End Install.

(** ** Construction *)

Section Init.

Variable cfg : config.
(** [urllib.request.urlopen] and the [UpdateCenter] constructor, called
    without arguments ([None]) or with [uc_url]. *)
Variable urlopen : string → outcome unit.
Variable new_UpdateCenter : option string → outcome UpdateCenter.

Definition lift {A} (o : outcome A) : M A := λ w, (o, w).

Definition nonempty (s : string) : bool := truthy (PyStr s).

Definition proxy_address : option string :=
  if nonempty (proxy_hostname cfg) && nonempty (proxy_port cfg) then
    if nonempty (proxy_username cfg) && nonempty (proxy_password cfg) then
      Some ("http://" +:+ proxy_username cfg +:+ ":" +:+ proxy_password cfg
            +:+ "@" +:+ proxy_hostname cfg +:+ ":" +:+ proxy_port cfg)
    else
      Some ("http://" +:+ proxy_hostname cfg +:+ ":" +:+ proxy_port cfg)
  else None.

Definition set_proxy : M unit :=
  match proxy_address with
  | Some a =>
      if nonempty a then
        log ("Setting http_proxy env variable to " +:+ a);;
        setenv "http_proxy" a
      else
        log "Unsetting http_proxy env variable if it was set";;
        popenv "http_proxy"
  | None =>
      log "Unsetting http_proxy env variable if it was set";;
      popenv "http_proxy"
  end.

(** [Plugins.__init__]: the value is [self.update_center]. *)
Definition __init__ : M UpdateCenter :=
  set_proxy;;
  if String.eqb (plugins_site cfg) "https://updates.jenkins-ci.org/latest/"
  then lift (new_UpdateCenter None)
  else
    let plugins_site := plugins_site cfg in
    try_except
      (let update_center := plugins_site +:+ "/update-center.json" in
       lift (urlopen update_center);;
       lift (new_UpdateCenter (Some update_center)))
      (λ e, match e with
            | HTTPError => raise PluginSiteError
            | _ => raise e
            end).

End Init.

(** ** Backup and restore *)

(** [distutils.dir_util], as far as the module uses it: [copy_tree src dst]
    and [remove_tree dir] act on the file system and may raise. *)
Record DirUtil := {
  copy_tree :
    string → string → gmap string kind → outcome unit * gmap string kind;
  remove_tree : string → gmap string kind → outcome unit * gmap string kind
}.

Section Backup.

Variable du : DirUtil.
(** [paths.PLUGINS] and [paths.PLUGINS_BACKUP]. *)
Variable PLUGINS : string.
Variable PLUGINS_BACKUP : string.

Definition run_copy_tree (src dst : string) : M unit :=
  λ w, let '(r, f) := copy_tree du src dst (fs w) in (r, set_fs f w).

Definition run_remove_tree (dir : string) : M unit :=
  λ w, let '(r, f) := remove_tree du dir (fs w) in (r, set_fs f w).

(** [shutil.chown(path, user="jenkins", group="jenkins")]: fails when
    there is nothing at [path]; owners are not part of the world. *)
Definition shutil_chown (path : string) : M unit :=
  λ w, if bool_decide (is_Some (fs w !! path)) then (Ok tt, w)
       else (Raise (OtherError "FileNotFoundError"), w).

(** Backup plugins. *)
Definition backup : M unit :=
  log "Backing up plugins.";;
  run_copy_tree PLUGINS PLUGINS_BACKUP.

(** Restore plugins from backup directory. *)
Definition restore : M unit :=
  log "Restoring plugins from backup.";;
  run_remove_tree PLUGINS;;
  run_copy_tree PLUGINS_BACKUP PLUGINS;;
  shutil_chown PLUGINS.

(** Remove backup directory. *)
Definition clean_backup : M unit :=
  log "Cleaning up backup plugins.";;
  run_remove_tree PLUGINS_BACKUP.

End Backup.

(** ** A small update center, Jenkins and plugin directory to run the model on *)

Module Demo.

(** [git] and [credentials] depend on each other; [foo] needs a newer
    core than the one running. *)
Definition deps (p : string) : list string :=
  if String.eqb p "git" then ["credentials"; "scm-api"]
  else if String.eqb p "credentials" then ["git"]
  else [].

Definition universe : gset string :=
  {["git"; "credentials"; "scm-api"]}.

Definition data (p : string) : plugin_data :=
  {| version := "2.0";
     requiredCore := if String.eqb p "foo" then "3.0" else "1.0" |}.

Definition place (plugin dst : string) (f : gmap string kind)
  : outcome pyval * gmap string kind :=
  let path := dst +:+ "/" +:+ plugin +:+ ".jpi" in
  (Ok (PyStr path), <[path := File]> f).

Definition uc : UpdateCenter :=
  {| get_plugins := λ l, list_to_set (l ++ flat_map deps l);
     get_plugin_data := data;
     _check_min_core_version := λ jenkins required, String.leb required jenkins;
     download_plugin := place |}.

Definition api : Api :=
  {| api_version := "2.0";
     get_plugin_version := λ p,
       if String.eqb p "instance-identity" then PyStr "1.0" else PyFalse |}.

Definition cfg (remove : string) : config :=
  {| proxy_hostname := ""; proxy_port := "";
     proxy_username := ""; proxy_password := "";
     plugins_site := "https://updates.jenkins-ci.org/latest/";
     cfg_plugins := "git";
     plugins_auto_update := false;
     remove_unlisted_plugins := remove |}.

Definition dir : string := "/var/lib/jenkins/plugins".

Definition repr (s : string) : string := "'" +:+ s +:+ "'".

Definition w0 : world :=
  {| fs := {[ "/var/lib/jenkins/plugins/unused.jpi" := File ]};
     environ := ∅;
     trace := [] |}.

Definition empty_world : world :=
  {| fs := ∅; environ := ∅; trace := [] |}.

(** A plugin site of one's own, and two ways for its manifest to be out
    of reach: the server answers with an error status, or it cannot be
    contacted at all. *)
Definition site_cfg : config :=
  {| proxy_hostname := ""; proxy_port := "";
     proxy_username := ""; proxy_password := "";
     plugins_site := "http://plugins.example/current";
     cfg_plugins := "git";
     plugins_auto_update := false;
     remove_unlisted_plugins := "no" |}.

Definition answers_404 (url : string) : outcome unit := Raise HTTPError.

Definition no_route (url : string) : outcome unit := Raise URLError.

Definition new_uc (uc_url : option string) : outcome UpdateCenter := Ok uc.


(** A configuration with a proxy that asks for no credentials. *)
Definition proxy_cfg : config :=
  {| proxy_hostname := "proxy.example"; proxy_port := "3128";
     proxy_username := ""; proxy_password := "";
     plugins_site := "https://updates.jenkins-ci.org/latest/";
     cfg_plugins := "git";
     plugins_auto_update := false;
     remove_unlisted_plugins := "no" |}.


End Demo.

(** ** The install decision, in the words of its description *)

(** The API's answer for a plugin counts as "not installed" when it is
    falsy: [False], or a version that is the empty string. *)
Definition reports_not_installed (api : Api) (plugin : string) : Prop :=
  truthy (get_plugin_version api plugin) = false.

(** The installed version differs from the latest one of the index, the
    [version] field of the data the index holds for the plugin. *)
Definition version_differs (uc : UpdateCenter) (api : Api) (plugin : string)
  : Prop :=
  get_plugin_version api plugin ≠ PyStr (version (get_plugin_data uc plugin)).

(** ** Relations between the world before and after a computation *)

(** [framed R m]: every run of [m] takes a world to one related by [R]. *)
Definition framed (R : world → world → Prop) {A} (m : M A) : Prop :=
  ∀ w, R w (m w).2.

(** The calls made in between include no [os.remove]. *)
Definition no_removal (w w' : world) : Prop :=
  ∃ new : list event, trace w' = trace w ++ new ∧ ∀ p, EvRemove p ∉ new.

(** Every regular file is still a regular file afterwards. *)
Definition keeps_files (w w' : world) : Prop :=
  ∀ path, fs w !! path = Some File → fs w' !! path = Some File.

(** A download never deletes a regular file nor replaces it by something
    that is not one. *)
Definition download_keeps_files (uc : UpdateCenter) : Prop :=
  ∀ (plugin dst : string) (f : gmap string kind) (path : string),
    f !! path = Some File →
    (download_plugin uc plugin dst f).2 !! path = Some File.


(** ** Tests made by the code, as boolean functions of a plugin name *)

(** The test of the compatibility filter:
    [self.update_center._check_min_core_version(jenkins_version,
    required_version)]. *)
Definition compatible (uc : UpdateCenter) (api : Api) (plugin : string) : bool :=
  _check_min_core_version uc (api_version api) (_get_required_jenkins uc plugin).

(** The test of [_install_plugin]:
    [not plugin_version or (update and plugin_version != latest_version)]. *)
Definition wants_download (uc : UpdateCenter) (api : Api) (update : bool)
    (plugin : string) : bool :=
  negb (truthy (get_plugin_version api plugin))
  || update && ne_str (get_plugin_version api plugin)
                  (_get_latest_version uc plugin).

(** The plugins for which a trace records a download, in order. *)
Definition downloads_of (t : list event) : list string :=
  omap (λ e, match e with EvDownload p _ => Some p | _ => None end) t.

(** ** The world in which install starts its downloads *)

(** The world once the two planning steps of [install] are done: the
    opening log line, and the report of the excluded plugins when there
    are some. *)
Definition planned_world (excluded : list string) (w : world) : world :=
  if negb (length excluded =? 0)%nat
  then emit (EvLog ("The following plugins require a higher jenkins version"
                    +:+ " and were not installed: ("
                    +:+ join " " excluded +:+ ")"))
         (emit (EvLog "Starting plugins installation process") w)
  else emit (EvLog "Starting plugins installation process") w.

(** ** Kinds of calls *)

Definition is_log (e : event) : Prop := ∃ x, e = EvLog x.

(** The calls [_install_plugins] makes for the directory [dir]. *)
Definition install_step (dir : string) (e : event) : Prop :=
  (∃ x, e = EvLog x ∨ e = EvDownload x dir) ∨ e = EvChownr dir.

(** The calls [_remove_plugins] makes for a set of paths. *)
Definition removal_step (paths : gset string) (e : event) : Prop :=
  is_log e ∨ ∃ x, e = EvRemove x ∧ x ∈ paths.

(** ** Trees of the file system *)

(** A path relative to a directory: empty, for the directory itself, or
    starting with a slash. *)
Definition relative_b (rest : string) : bool :=
  match rest with
  | EmptyString => true
  | String c _ => Ascii.eqb c "/"
  end.

(** [path] is [dir] or lies below it. *)
Definition within_b (dir path : string) : bool :=
  match strip_prefix dir path with
  | Some rest => relative_b rest
  | None => false
  end.

(** What the module relies on from [remove_tree]: when it returns,
    nothing is left at or below the directory and the rest is as before;
    and it raises, changing nothing, when the directory is not there. *)
Definition remove_tree_clears (du : DirUtil) : Prop :=
  ∀ (dir : string) (f f' : gmap string kind),
    remove_tree du dir f = (Ok tt, f') →
    (∀ p, within_b dir p = true → f' !! p = None)
    ∧ (∀ p, within_b dir p = false → f' !! p = f !! p).

Definition remove_tree_needs_dir (du : DirUtil) : Prop :=
  ∀ (dir : string) (f : gmap string kind),
    f !! dir ≠ Some Dir → ∃ e, remove_tree du dir f = (Raise e, f).

(** What the module relies on from [copy_tree]: when it returns from
    copying to a destination where nothing was, the tree below the
    destination is the tree below the source and the rest is as before;
    and it raises, changing nothing, when the source is not a directory. *)
Definition copy_tree_copies (du : DirUtil) : Prop :=
  ∀ (src dst : string) (f f' : gmap string kind),
    (∀ p, within_b dst p = true → f !! p = None) →
    copy_tree du src dst f = (Ok tt, f') →
    (∀ rest, relative_b rest = true → f' !! (dst +:+ rest) = f !! (src +:+ rest))
    ∧ (∀ p, within_b dst p = false → f' !! p = f !! p).

Definition copy_tree_needs_source (du : DirUtil) : Prop :=
  ∀ (src dst : string) (f : gmap string kind),
    f !! src ≠ Some Dir → ∃ e, copy_tree du src dst f = (Raise e, f).

(** [needle] occurs in [hay] as a substring. *)
Definition occurs_in (needle hay : string) : Prop :=
  ∃ a b : string, hay = a +:+ needle +:+ b.

(** Two directories neither of which lies in the other. *)
Definition separate (d1 d2 : string) : Prop :=
  ∀ p, within_b d1 p = true → within_b d2 p = true → False.

(** [distutils.dir_util] on a file system that holds paths and kinds. *)
Module DemoTree.

Definition copy_entry (src dst p : string) (k : kind)
    (acc : gmap string kind) : gmap string kind :=
  match strip_prefix src p with
  | Some rest => if relative_b rest then <[dst +:+ rest := k]> acc else acc
  | None => acc
  end.

Definition copy (src dst : string) (f : gmap string kind)
  : outcome unit * gmap string kind :=
  if bool_decide (f !! src = Some Dir)
  then (Ok tt, map_fold (copy_entry src dst) f f)
  else (Raise (OtherError "DistutilsFileError"), f).

Definition remove (dir : string) (f : gmap string kind)
  : outcome unit * gmap string kind :=
  if bool_decide (f !! dir = Some Dir)
  then (Ok tt, filter (λ kv, within_b dir kv.1 = false) f)
  else (Raise (OtherError "FileNotFoundError"), f).

Definition du : DirUtil := {| copy_tree := copy; remove_tree := remove |}.

Definition live : string := "/var/lib/jenkins/plugins".
Definition saved : string := "/var/lib/jenkins/plugins-backup".

(** The plugin directory with one plugin, and no backup yet. *)
Definition w0 : world :=
  {| fs := {[ "/var/lib/jenkins/plugins" := Dir;
              "/var/lib/jenkins/plugins/git.jpi" := File ]};
     environ := ∅; trace := [] |}.

End DemoTree.

(** * Properties *)

(** ** Reading the plugins argument *)

Example split_words : split " git  blueocean " = ["git"; "blueocean"].
Proof. reflexivity. Qed.

Example split_blank : split "   " = [].
Proof. reflexivity. Qed.

(** ** The compatibility filter *)

Section FilterFacts.

Variable uc : UpdateCenter.
Variable api : Api.

Lemma exclude_disjoint (plugins : iterable) (p : string) :
  p ∈ (_exclude_incompatible_plugins uc api plugins).1 →
  p ∉ (_exclude_incompatible_plugins uc api plugins).2.
Proof.
  unfold _exclude_incompatible_plugins; simpl.
  intros Hin. apply list_elem_of_filter in Hin as [Hnot _]. exact Hnot.
Qed.

Lemma exclude_exhaustive (s : gset string) (p : string) :
  p ∈ s →
  p ∈ (_exclude_incompatible_plugins uc api (PySet s)).1
  ∨ p ∈ (_exclude_incompatible_plugins uc api (PySet s)).2.
Proof.
  intros Hp. unfold _exclude_incompatible_plugins; simpl.
  match goal with
  | |- _ ∨ p ∈ ?l => destruct (decide (p ∈ l)) as [Hex | Hex]
  end; [by right | left].
  apply list_elem_of_filter. split; [done | by apply elem_of_elements].
Qed.

Lemma exclude_within (s : gset string) (p : string) :
  p ∈ (_exclude_incompatible_plugins uc api (PySet s)).1
  ∨ p ∈ (_exclude_incompatible_plugins uc api (PySet s)).2 →
  p ∈ s.
Proof.
  unfold _exclude_incompatible_plugins; simpl.
  intros [H | H]; apply list_elem_of_filter in H as [_ H];
    by apply elem_of_elements in H.
Qed.

End FilterFacts.

(** ** The dependency expansion *)

Section ExpansionFacts.

Variable uc : UpdateCenter.
Variable api : Api.

(** The contract of the index: the answer contains the names asked for. *)
Hypothesis get_plugins_superset :
  ∀ l : list string, list_to_set l ⊆ get_plugins uc l.

(** Whatever the planner returns is the filter applied to a set that
    contains the names it was given. *)
Lemma plan_result (fuel : nat) :
  ∀ (plugins : iterable) (r : list string * list string),
    _get_plugins_to_install uc api fuel plugins = Some r →
    ∃ s : gset string,
      list_to_set (iterate plugins) ⊆ s
      ∧ get_plugins uc (elements s) = s
      ∧ r = _exclude_incompatible_plugins uc api (PySet s).
Proof.
  induction fuel as [| fuel IH]; intros plugins r; simpl; [done |].
  destruct (eq_set plugins (get_plugins uc (iterate plugins))) eqn:Heq.
  - destruct plugins as [l | l | s]; simpl in Heq; try done.
    apply bool_decide_eq_true in Heq. intros [= <-].
    exists s. simpl. split; [| done].
    by rewrite list_to_set_elements_L.
  - intros Hr. destruct (IH _ _ Hr) as (s & Hsub & Hfix & Hres).
    exists s. split; [| done].
    simpl in Hsub. rewrite list_to_set_elements_L in Hsub.
    pose proof (get_plugins_superset (iterate plugins)). set_solver.
Qed.

(** Names outside of what was asked for come from a finite universe. *)
Variable U : gset string.
Hypothesis get_plugins_universe :
  ∀ l : list string, get_plugins uc l ⊆ list_to_set l ∪ U.

Lemma plan_from_set (n : nat) :
  ∀ s : gset string,
    size (U ∖ s) < n →
    ∃ s' : gset string,
      s ⊆ s'
      ∧ get_plugins uc (elements s') = s'
      ∧ ∀ fuel : nat, n ≤ fuel →
          _get_plugins_to_install uc api fuel (PySet s)
          = Some (_exclude_incompatible_plugins uc api (PySet s')).
Proof.
  induction n as [| n IH]; intros s Hsize; [lia |].
  pose proof (get_plugins_superset (elements s)) as Hsup.
  pose proof (get_plugins_universe (elements s)) as Huni.
  rewrite list_to_set_elements_L in Hsup, Huni.
  destruct (decide (s = get_plugins uc (elements s))) as [Hfix | Hne].
  - exists s. split; [done |]. split; [done |].
    intros [| fuel] Hle; [lia |]. simpl.
    by rewrite bool_decide_true.
  - assert (size (U ∖ get_plugins uc (elements s)) < size (U ∖ s)) as Hlt.
    { apply subset_size. split; [set_solver |].
      intros Hback. apply Hne. apply set_eq. intros x. split; [set_solver |].
      intros Hx. destruct (decide (x ∈ s)) as [| Hxs]; [done |].
      exfalso. assert (x ∈ U ∖ s) as Hxu by set_solver.
      apply Hback in Hxu. set_solver. }
    destruct (IH (get_plugins uc (elements s))) as (s' & Hsub & Hfix & Hrun);
      [lia |].
    exists s'. split; [set_solver |]. split; [done |].
    intros [| fuel] Hle; [lia |]. simpl.
    rewrite bool_decide_false by done. apply Hrun. lia.
Qed.

Lemma plan_converges (plugins : iterable) :
  ∃ (n : nat) (s : gset string),
    n ≤ size U + 2
    ∧ list_to_set (iterate plugins) ⊆ s
    ∧ get_plugins uc (elements s) = s
    ∧ ∀ fuel : nat, n ≤ fuel →
        _get_plugins_to_install uc api fuel plugins
        = Some (_exclude_incompatible_plugins uc api (PySet s)).
Proof.
  assert (∀ s : gset string, size (U ∖ s) < size U + 1) as Hsize.
  { intros s. assert (size (U ∖ s) ≤ size U); [| lia].
    apply subseteq_size. set_solver. }
  pose proof (get_plugins_superset (iterate plugins)) as Hsup.
  destruct plugins as [l | l | s].
  1, 2: destruct (plan_from_set (size U + 1) (get_plugins uc l) (Hsize _))
      as (s' & Hsub & Hfix & Hrun);
    exists (size U + 2), s'; (split; [lia |]); (split; [set_solver |]);
    (split; [done |]);
    intros [| fuel] Hle; [lia |]; simpl; apply Hrun; lia.
  destruct (plan_from_set (size U + 1) s (Hsize _))
    as (s' & Hsub & Hfix & Hrun).
  exists (size U + 1), s'. split; [lia |]. split.
  - simpl. by rewrite list_to_set_elements_L.
  - split; [done | exact Hrun].
Qed.

End ExpansionFacts.

(** The planner only ever answers with the two lists of the filter. *)
Lemma plan_shape (uc : UpdateCenter) (api : Api) (fuel : nat) :
  ∀ (plugins : iterable) (r : list string * list string),
    _get_plugins_to_install uc api fuel plugins = Some r →
    ∃ plugins' : iterable, r = _exclude_incompatible_plugins uc api plugins'.
Proof.
  induction fuel as [| fuel IH]; intros plugins r; simpl; [done |].
  destruct (eq_set plugins (get_plugins uc (iterate plugins))).
  - intros [= <-]. by eexists.
  - apply IH.
Qed.

(** The demo index honours the contract of the expansion. *)
Lemma demo_superset (l : list string) :
  list_to_set l ⊆ get_plugins Demo.uc l.
Proof. simpl. rewrite list_to_set_app_L. set_solver. Qed.

Lemma demo_universe (l : list string) :
  get_plugins Demo.uc l ⊆ list_to_set l ∪ Demo.universe.
Proof.
  simpl. rewrite list_to_set_app_L. intros x.
  rewrite !elem_of_union, !elem_of_list_to_set.
  intros [Hx | Hx]; [by left | right].
  apply list_elem_of_In, in_flat_map in Hx as (p & _ & Hx).
  unfold Demo.deps in Hx. unfold Demo.universe.
  destruct (String.eqb p "git"); [| destruct (String.eqb p "credentials")];
    simpl in Hx; set_solver.
Qed.

(** C1. The dependency expansion terminates: when the index answers with
    a superset of the names it is asked about and every other name it
    produces lies in a finite universe [U], then for every iterable handed
    to [_get_plugins_to_install] there is a recursion depth [n], at most
    [size U + 2], from which the planner returns; what it returns is the
    compatibility filter applied to a set [s] that contains the requested
    names and is a fixed point of the index. *)
Theorem get_plugins_to_install_terminates
    (uc : UpdateCenter) (api : Api) (U : gset string)
    (Hsup : ∀ l : list string, list_to_set l ⊆ get_plugins uc l)
    (Hfin : ∀ l : list string, get_plugins uc l ⊆ list_to_set l ∪ U)
    (plugins : iterable) :
  ∃ (n : nat) (s : gset string),
    n ≤ size U + 2
    ∧ list_to_set (iterate plugins) ⊆ s
    ∧ get_plugins uc (elements s) = s
    ∧ ∀ fuel : nat, n ≤ fuel →
        _get_plugins_to_install uc api fuel plugins
        = Some (_exclude_incompatible_plugins uc api (PySet s)).
Proof. exact (plan_converges uc api Hsup U Hfin plugins). Qed.

(** The demo index, whose dependency graph has a cycle, meets both
    assumptions. *)
Lemma get_plugins_to_install_terminates_witness :
  ∃ (n : nat) (s : gset string),
    n ≤ size Demo.universe + 2
    ∧ list_to_set (iterate (requested (Some "git foo"))) ⊆ s
    ∧ get_plugins Demo.uc (elements s) = s
    ∧ ∀ fuel : nat, n ≤ fuel →
        _get_plugins_to_install Demo.uc Demo.api fuel
          (requested (Some "git foo"))
        = Some (_exclude_incompatible_plugins Demo.uc Demo.api (PySet s)).
Proof.
  exact (get_plugins_to_install_terminates Demo.uc Demo.api Demo.universe
           demo_superset demo_universe (requested (Some "git foo"))).
Defined.

(** C2. The two lists returned by planning are disjoint: no name is both
    in the list to install and in the excluded list, for the filter
    [_exclude_incompatible_plugins] on any iterable and for every answer
    of the planner on a requested list. *)
Theorem to_install_excluded_disjoint (uc : UpdateCenter) (api : Api) :
  (∀ (plugins : iterable) (p : string),
     p ∈ (_exclude_incompatible_plugins uc api plugins).1 →
     p ∉ (_exclude_incompatible_plugins uc api plugins).2)
  ∧ (∀ (fuel : nat) (R : option string) (to_install excluded : list string),
       _get_plugins_to_install uc api fuel (requested R)
       = Some (to_install, excluded) →
       ∀ p : string, p ∈ to_install → p ∉ excluded).
Proof.
  split; [apply exclude_disjoint |].
  intros fuel R to_install excluded Hplan p Hin.
  apply plan_shape in Hplan as [plugins' Heq].
  pose proof (exclude_disjoint uc api plugins' p) as Hdis.
  rewrite <- Heq in Hdis. by apply Hdis.
Qed.

(** On the demo index, ["git foo"] is planned in five steps or fewer. *)
Lemma to_install_excluded_disjoint_witness :
  _get_plugins_to_install Demo.uc Demo.api 5 (requested (Some "git foo"))
  = Some (["git"; "scm-api"; "credentials"; "instance-identity"], ["foo"])
  ∧ "git" ∈ ["git"; "scm-api"; "credentials"; "instance-identity"]
  ∧ "git" ∉ ["foo"].
Proof.
  assert (_get_plugins_to_install Demo.uc Demo.api 5
            (requested (Some "git foo"))
          = Some (["git"; "scm-api"; "credentials"; "instance-identity"],
                  ["foo"])) as Hplan by (vm_compute; reflexivity).
  assert ("git" ∈ ["git"; "scm-api"; "credentials"; "instance-identity"])
    as Hin by apply list_elem_of_here.
  split; [exact Hplan |]. split; [exact Hin |].
  exact (proj2 (to_install_excluded_disjoint Demo.uc Demo.api)
           5 (Some "git foo") _ _ Hplan "git" Hin).
Defined.

(** C3. Required plugins are carried to the compatibility check: when the
    index answers with a superset of the names it is asked about, every
    name of [REQUIRED_PLUGINS] is in the list to install or in the
    excluded list that the planning step of [install] computes, whatever
    the plugins argument; and the planning step does return such a pair
    once the other names the index produces lie in a finite universe. *)
Theorem required_plugins_reach_filter
    (uc : UpdateCenter) (api : Api)
    (Hsup : ∀ l : list string, list_to_set l ⊆ get_plugins uc l)
    (R : option string) :
  (∀ U : gset string,
     (∀ l : list string, get_plugins uc l ⊆ list_to_set l ∪ U) →
     ∃ (fuel : nat) (to_install excluded : list string),
       _get_plugins_to_install uc api fuel (requested R)
       = Some (to_install, excluded))
  ∧ (∀ (fuel : nat) (to_install excluded : list string),
       _get_plugins_to_install uc api fuel (requested R)
       = Some (to_install, excluded) →
       ∀ p : string,
         p ∈ REQUIRED_PLUGINS → p ∈ to_install ∨ p ∈ excluded).
Proof.
  split.
  - intros U Hfin.
    destruct (plan_converges uc api Hsup U Hfin (requested R))
      as (n & s & _ & _ & _ & Hrun).
    exists n.
    destruct (_exclude_incompatible_plugins uc api (PySet s))
      as [to_install excluded] eqn:Hex.
    exists to_install, excluded. by apply Hrun.
  - intros fuel to_install excluded Hplan p Hreq.
    destruct (plan_result uc api Hsup fuel _ _ Hplan) as (s & Hsub & _ & Heq).
    assert (p ∈ s) as Hp.
    { apply Hsub.
      change (iterate (requested R))
        with (REQUIRED_PLUGINS ++ split (or_empty R))%list.
      rewrite list_to_set_app_L.
      apply elem_of_union_l. by apply elem_of_list_to_set. }
    pose proof (exclude_exhaustive uc api s p Hp) as Hcase.
    by rewrite <- Heq in Hcase.
Qed.

(** On the demo index, [instance-identity] is planned for ["git foo"]. *)
Lemma required_plugins_reach_filter_witness :
  (∃ (fuel : nat) (to_install excluded : list string),
     _get_plugins_to_install Demo.uc Demo.api fuel (requested (Some "git foo"))
     = Some (to_install, excluded))
  ∧ ("instance-identity"
       ∈ ["git"; "scm-api"; "credentials"; "instance-identity"]
     ∨ "instance-identity" ∈ ["foo"]).
Proof.
  pose proof (required_plugins_reach_filter Demo.uc Demo.api demo_superset
                (Some "git foo")) as [Hruns Hreq].
  split.
  - exact (Hruns Demo.universe demo_universe).
  - apply (Hreq 5); [vm_compute; reflexivity | apply list_elem_of_here].
Defined.

(** C10. [install] takes [None] or the empty string for its plugins
    argument: both are read as no extra names, so that the iterable handed
    to the planner yields exactly the required plugins, the index is first
    asked about exactly those, and the two calls of [install] behave
    alike. *)
Theorem install_none_or_empty :
  iterate (requested None) = REQUIRED_PLUGINS
  ∧ iterate (requested (Some "")) = REQUIRED_PLUGINS
  ∧ (∀ (uc : UpdateCenter) (api : Api) (fuel : nat),
       _get_plugins_to_install uc api (S fuel) (requested None)
       = _get_plugins_to_install uc api fuel
           (PySet (get_plugins uc REQUIRED_PLUGINS)))
  ∧ (∀ (uc : UpdateCenter) (api : Api) (cfg : config)
       (PLUGINS : string) (repr : string → string) (fuel : nat) (w : world),
       install uc api cfg PLUGINS repr fuel None w
       = install uc api cfg PLUGINS repr fuel (Some "") w).
Proof. repeat split. Qed.

(** ** Strings and paths *)

Lemma list_ascii_app (a b : string) :
  list_ascii_of_string (a +:+ b)
  = (list_ascii_of_string a ++ list_ascii_of_string b)%list.
Proof. induction a as [| c a IH]; simpl; [done | by rewrite IH]. Qed.

Lemma strip_prefix_app (p s : string) : strip_prefix p (p +:+ s) = Some s.
Proof.
  induction p as [| c p IH]; simpl; [done |].
  by rewrite Ascii.eqb_refl.
Qed.

Lemma strip_prefix_Some (p s name : string) :
  strip_prefix p s = Some name → s = p +:+ name.
Proof.
  revert s. induction p as [| c p IH]; intros s; simpl.
  - by intros [= ->].
  - destruct s as [| b s]; [done |].
    destruct (Ascii.eqb c b) eqn:Hcb; [| done].
    apply Ascii.eqb_eq in Hcb as ->. intros H. by rewrite (IH _ H).
Qed.

(** Two strings that end differently over the same length are not a
    suffix of one another. *)
Lemma endswith_same_tail (a x b y : string) :
  endswith (a +:+ x) (b +:+ y) = true →
  length (list_ascii_of_string x) = length (list_ascii_of_string y) →
  x = y.
Proof.
  unfold endswith. intros Hsuf Hlen.
  apply bool_decide_eq_true in Hsuf as [k Hk].
  rewrite !list_ascii_app in Hk. rewrite (app_assoc k) in Hk.
  apply app_inj_2 in Hk as [_ Hk]; [| done].
  rewrite <- (string_of_list_ascii_of_string x),
          <- (string_of_list_ascii_of_string y). by rewrite Hk.
Qed.

Lemma append_assoc (a b c : string) : (a +:+ b) +:+ c = a +:+ (b +:+ c).
Proof.
  induction a as [| x a IH]; [done |].
  change (String x ((a +:+ b) +:+ c) = String x (a +:+ (b +:+ c))).
  by rewrite IH.
Qed.

Lemma append_nil_r (a : string) : a +:+ "" = a.
Proof.
  induction a as [| x a IH]; [done |].
  change (String x (a +:+ "") = String x a). by rewrite IH.
Qed.

(** Every element of a joined list occurs in the joined string. *)
Lemma occurs_in_join (sep : string) (l : list string) (x : string) :
  x ∈ l → occurs_in x (join sep l).
Proof.
  induction l as [| y l IH]; intros Hx; [by apply elem_of_nil in Hx |].
  apply elem_of_cons in Hx as [-> | Hx].
  - destruct l as [| z l].
    + exists "", "". simpl. by rewrite append_nil_r.
    + exists "", (sep +:+ join sep (z :: l)). done.
  - destruct l as [| z l]; [by apply elem_of_nil in Hx |].
    destruct (IH Hx) as (a & b & Hab).
    exists (y +:+ sep +:+ a), b.
    change (join sep (y :: z :: l)) with (y +:+ sep +:+ join sep (z :: l)).
    rewrite Hab. by rewrite !append_assoc.
Qed.

(** The message about unlisted plugins spells out each of their paths. *)
Lemma occurs_in_unlisted_message (unlisted : gset string) (path : string) :
  path ∈ unlisted → occurs_in path (unlisted_message unlisted).
Proof.
  intros Hin.
  destruct (occurs_in_join ", " (elements unlisted) path) as (a & b & Hab);
    [by apply elem_of_elements |].
  unfold unlisted_message. rewrite Hab.
  exists ("Unlisted plugins: (" +:+ a),
         (b +:+ ") Not removed. Set "
          +:+ "remove-unlisted-plugins to 'yes' to clear them " +:+ "away.").
  by rewrite !append_assoc.
Qed.

Lemma unused_in_glob (dir : string) (f : gmap string kind) :
  is_Some (f !! (dir +:+ "/unused.jpi")) →
  dir +:+ "/unused.jpi" ∈ plugin_files dir f.
Proof.
  intros Hsome. unfold plugin_files. apply elem_of_filter.
  split; [| by apply elem_of_dom].
  unfold in_glob.
  replace (dir +:+ "/unused.jpi") with ((dir +:+ "/") +:+ "unused.jpi")
    by (by rewrite append_assoc).
  by rewrite strip_prefix_app.
Qed.

(** With the names built from the planner's pair, a file called
    [unused.jpi] never counts as listed: every such name ends in
    ["].jpi"]. *)
Lemma unused_not_listed (repr : string → string)
    (cp : list string * list string) (dir : string) (existing : gset string) :
  dir +:+ "/unused.jpi" ∉ listed_plugins (plugin_file_names repr cp) existing.
Proof.
  unfold listed_plugins. rewrite elem_of_filter. intros [Hends _].
  unfold plugin_file_names, endswith_any in Hends. simpl in Hends.
  assert (∀ l : list string,
            endswith (dir +:+ "/unused.jpi")
              ("/" +:+ str_list repr l +:+ ".jpi") = false) as Hno.
  { intros l. apply not_true_is_false. intros Htrue.
    unfold str_list in Htrue.
    replace (dir +:+ "/unused.jpi") with ((dir +:+ "/unuse") +:+ "d.jpi")
      in Htrue by (by rewrite append_assoc).
    replace ("/" +:+ ("[" +:+ join ", " (map repr l) +:+ "]") +:+ ".jpi")
      with (("/[" +:+ join ", " (map repr l)) +:+ "].jpi") in Htrue
      by (by rewrite !append_assoc).
    by apply endswith_same_tail in Htrue. }
  by rewrite !Hno in Hends.
Qed.

(** ** Effects of the monadic code *)

Ltac unfold_monad :=
  unfold mbind, M_bind, bind, mret, M_ret, ret, raise, log, call, of_fuel,
    glob_plugins, try_except, isfile in *.

(** A relation between the world before and after a computation that
    holds across every step except [os.remove]. *)
Section Frames.

Variable R : world → world → Prop.
Hypothesis R_refl : ∀ w, R w w.
Hypothesis R_trans : ∀ w1 w2 w3, R w1 w2 → R w2 w3 → R w1 w3.
Hypothesis R_emit : ∀ e w, (∀ p, e ≠ EvRemove p) → R w (emit e w).

Lemma framed_ret {A} (a : A) : framed R (mret a).
Proof. intros w. apply R_refl. Qed.

Lemma framed_raise {A} (e : exn) : framed R (raise (A := A) e).
Proof. intros w. apply R_refl. Qed.

Lemma framed_bind {A B} (m : M A) (k : A → M B) :
  framed R m → (∀ a, framed R (k a)) → framed R (m ≫= k).
Proof.
  intros Hm Hk w. unfold_monad. specialize (Hm w).
  destruct (m w) as [[a | e |] w1]; simpl in *; [| done | done].
  eapply R_trans; [exact Hm | apply Hk].
Qed.

Lemma framed_try_except {A} (m : M A) (h : exn → M A) :
  framed R m → (∀ e, framed R (h e)) → framed R (try_except m h).
Proof.
  intros Hm Hh w. unfold try_except. specialize (Hm w).
  destruct (m w) as [[a | e |] w1]; simpl in *; [done | | done].
  eapply R_trans; [exact Hm | apply Hh].
Qed.

Lemma framed_log (msg : string) : framed R (log msg).
Proof. intros w. by apply R_emit. Qed.

Lemma framed_call (e : event) : (∀ p, e ≠ EvRemove p) → framed R (call e).
Proof. intros He w. by apply R_emit. Qed.

Lemma framed_of_fuel {A} (o : option A) : framed R (of_fuel o).
Proof. intros w. unfold of_fuel. destruct o; apply R_refl. Qed.

Lemma framed_glob (dir : string) : framed R (glob_plugins dir).
Proof. intros w. apply R_refl. Qed.

Lemma framed_for_each {A B} (body : A → B → M B) (l : list A) :
  (∀ x acc, framed R (body x acc)) → ∀ acc, framed R (for_each l acc body).
Proof.
  intros Hbody. induction l as [| x l IH]; intros acc; simpl.
  - apply (framed_ret acc).
  - apply framed_bind; [apply Hbody | apply IH].
Qed.

Variable uc : UpdateCenter.
Variable api : Api.
Variable cfg : config.
Variable PLUGINS : string.
Variable repr : string → string.

Hypothesis R_download : ∀ plugin, framed R (download uc PLUGINS plugin).

Lemma framed_install_plugin (plugin : string) (update : bool) :
  framed R (_install_plugin uc api PLUGINS plugin update).
Proof.
  unfold _install_plugin.
  destruct (negb (truthy (get_plugin_version api plugin))
            || update && ne_str (get_plugin_version api plugin)
                           (_get_latest_version uc plugin)).
  - apply framed_bind; [apply framed_log | intros _; apply R_download].
  - apply framed_bind; [apply framed_log | intros _; apply framed_ret].
Qed.

Lemma framed_install_plugins (plugins : list string) :
  framed R (_install_plugins uc api cfg PLUGINS plugins).
Proof.
  unfold _install_plugins.
  apply framed_bind; [apply framed_log | intros _].
  apply framed_bind.
  - apply framed_for_each. intros plugin acc.
    apply framed_bind; [apply framed_install_plugin | intros v].
    destruct v as [| | s]; simpl; try apply framed_ret.
    + apply framed_bind; [apply framed_log | intros _; apply framed_ret].
    + destruct (negb (String.eqb s "")); [apply framed_ret |].
      apply framed_bind; [apply framed_log | intros _; apply framed_ret].
  - intros paths. apply framed_bind; [| intros _; apply framed_ret].
    by apply framed_call.
Qed.

(** With removal switched off, the whole of [install] is framed. *)
Lemma framed_install (fuel : nat) (plugins : option string) :
  String.eqb (remove_unlisted_plugins cfg) "yes" = false →
  framed R (install uc api cfg PLUGINS repr fuel plugins).
Proof.
  intros Hoff. unfold install. rewrite Hoff.
  apply framed_bind; [apply framed_log | intros _].
  apply framed_bind; [apply framed_of_fuel | intros [ti ex]].
  apply framed_bind.
  { destruct (negb (length ex =? 0)); [apply framed_log | apply framed_ret]. }
  intros _. apply framed_bind; [apply framed_of_fuel | intros cp].
  apply framed_bind; [by apply framed_call | intros _].
  apply framed_bind; [apply framed_glob | intros existing].
  apply framed_bind.
  { apply framed_try_except; [apply framed_install_plugins |].
    intros e. apply framed_bind; [apply framed_log | intros _].
    apply framed_raise. }
  intros _. apply framed_bind.
  { destruct (negb (bool_decide _)); [apply framed_log | apply framed_ret]. }
  intros _. apply framed_bind; [by apply framed_call | intros _].
  apply framed_ret.
Qed.

End Frames.

Lemma no_removal_refl w : no_removal w w.
Proof. exists []. split; [by rewrite app_nil_r | set_solver]. Qed.

Lemma no_removal_trans w1 w2 w3 :
  no_removal w1 w2 → no_removal w2 w3 → no_removal w1 w3.
Proof.
  intros (n1 & H1 & Hn1) (n2 & H2 & Hn2). exists (n1 ++ n2). split.
  - by rewrite H2, H1, app_assoc.
  - intros p Hp. apply elem_of_app in Hp as [Hp | Hp]; [by eapply Hn1 | by eapply Hn2].
Qed.

Lemma no_removal_emit e w : (∀ p, e ≠ EvRemove p) → no_removal w (emit e w).
Proof.
  intros He. exists [e]. split; [done |].
  intros p Hp. apply list_elem_of_singleton in Hp. by eapply He.
Qed.

Lemma no_removal_download uc PLUGINS plugin :
  framed no_removal (download uc PLUGINS plugin).
Proof.
  intros w. unfold download.
  destruct (download_plugin uc plugin PLUGINS (fs (emit (EvDownload plugin PLUGINS) w)))
    as [r f]. simpl.
  by apply (no_removal_emit (EvDownload plugin PLUGINS) w).
Qed.

Lemma keeps_files_refl w : keeps_files w w.
Proof. by intros path. Qed.

Lemma keeps_files_trans w1 w2 w3 :
  keeps_files w1 w2 → keeps_files w2 w3 → keeps_files w1 w3.
Proof. intros H1 H2 path Hp. by apply H2, H1. Qed.

Lemma keeps_files_emit e w : (∀ p, e ≠ EvRemove p) → keeps_files w (emit e w).
Proof. by intros _ path. Qed.

Lemma keeps_files_download uc PLUGINS plugin :
  download_keeps_files uc → framed keeps_files (download uc PLUGINS plugin).
Proof.
  intros Hkeep w path Hp. unfold download.
  pose proof (Hkeep plugin PLUGINS (fs (emit (EvDownload plugin PLUGINS) w)) path Hp) as H.
  destruct (download_plugin uc plugin PLUGINS (fs (emit (EvDownload plugin PLUGINS) w)))
    as [r f]. done.
Qed.

Lemma remove_plugin_run (path : string) (w : world) :
  _remove_plugin path w
  = if bool_decide (fs w !! path = Some File)
    then (Ok tt,
          emit (EvRemove path)
            (set_fs (delete path (fs w))
               (emit (EvLog ("Deleting unlisted plugin '" +:+ path +:+ "'")) w)))
    else (Ok tt, w).
Proof.
  unfold _remove_plugin, os_remove. unfold_monad. simpl.
  case_bool_decide as Hfile; simpl; [| done].
  by rewrite Hfile.
Qed.

Lemma remove_each_run (l : list string) :
  ∀ w : world,
    ∃ w' : world,
      for_each l tt (λ path _, _remove_plugin path) w = (Ok tt, w')
      ∧ environ w' = environ w
      ∧ (∀ p, fs w' !! p
              = if bool_decide (p ∈ l ∧ fs w !! p = Some File)
                then None else fs w !! p)
      ∧ (∀ p, EvRemove p ∈ trace w'
              ↔ EvRemove p ∈ trace w ∨ (p ∈ l ∧ fs w !! p = Some File)).
Proof.
  induction l as [| x l IH]; intros w; simpl.
  - exists w. unfold_monad. split; [done |]. split; [done |]. split.
    + done.
    + intros p. set_solver.
  - unfold mbind, M_bind, bind. rewrite remove_plugin_run.
    case_bool_decide as Hx.
    + destruct (IH (emit (EvRemove x)
                     (set_fs (delete x (fs w))
                        (emit (EvLog ("Deleting unlisted plugin '" +:+ x +:+ "'")) w))))
        as (w' & Hrun & Henv & Hfs & Htr).
      exists w'. split; [exact Hrun |]. split; [done |]. split.
      * intros p. rewrite Hfs. simpl.
        destruct (decide (p = x)) as [-> | Hne].
        -- rewrite lookup_delete_eq.
           rewrite (bool_decide_true (x ∈ x :: l ∧ _)) by set_solver.
           by case_bool_decide.
        -- rewrite lookup_delete_ne by done.
           repeat case_bool_decide; set_solver.
      * intros p. rewrite Htr. simpl.
        rewrite !elem_of_app, !list_elem_of_singleton.
        destruct (decide (p = x)) as [-> | Hne].
        -- rewrite lookup_delete_eq. set_solver.
        -- rewrite lookup_delete_ne by done. set_solver.
    + destruct (IH w) as (w' & Hrun & Henv & Hfs & Htr).
      exists w'. split; [exact Hrun |]. split; [done |]. split.
      * intros p. rewrite Hfs. repeat case_bool_decide; set_solver.
      * intros p. rewrite Htr. set_solver.
Qed.

Ltac no_removal_steps :=
  repeat (eapply no_removal_trans; [| by apply no_removal_emit]);
  apply no_removal_refl.

Lemma install_inv (uc : UpdateCenter) (api : Api) (cfg : config)
    (PLUGINS : string) (repr : string → string) (fuel : nat)
    (plugins : option string) (w : world)
    (r : gset string * list string) (w' : world) :
  install uc api cfg PLUGINS repr fuel plugins w = (Ok r, w') →
  ∃ (ti ex : list string) (cp : list string * list string)
    (paths : gset string) (w3 w4 : world),
    _get_plugins_to_install uc api fuel (requested plugins) = Some (ti, ex)
    ∧ _get_plugins_to_install uc api fuel (PyList (split (cfg_plugins cfg)))
      = Some cp
    ∧ fs w3 = fs w
    ∧ no_removal w w3
    ∧ _install_plugins uc api cfg PLUGINS ti w3 = (Ok paths, w4)
    ∧ r = (listed_plugins (plugin_file_names repr cp)
             (plugin_files PLUGINS (fs w)), ex)
    ∧ let unlisted :=
        plugin_files PLUGINS (fs w)
        ∖ listed_plugins (plugin_file_names repr cp)
            (plugin_files PLUGINS (fs w)) in
      (unlisted = ∅ ∧ w' = emit EvRestart w4)
      ∨ (unlisted ≠ ∅ ∧ remove_unlisted_plugins cfg = "yes"
         ∧ ∃ w5, _remove_plugins unlisted w4 = (Ok tt, w5)
                 ∧ w' = emit EvRestart w5)
      ∨ (unlisted ≠ ∅ ∧ remove_unlisted_plugins cfg ≠ "yes"
         ∧ w' = emit EvRestart (emit (EvLog (unlisted_message unlisted)) w4)).
Proof.
  unfold install. unfold_monad. simpl.
  destruct (_get_plugins_to_install uc api fuel (requested plugins))
    as [[ti ex] |] eqn:Hplan; [| done].
  destruct (_get_plugins_to_install uc api fuel
              (PyList (split (cfg_plugins cfg)))) as [cp |] eqn:Hconf;
    [| by destruct (negb (length ex =? 0))].
  assert (∃ w3 : world,
            fs w3 = fs w ∧ no_removal w w3
            ∧ (if negb (length ex =? 0)
               then emit (EvMkdir PLUGINS)
                      (emit (EvLog
                               ("The following plugins require a higher jenkins version"
                                +:+ " and were not installed: ("
                                +:+ join " " ex +:+ ")"))
                         (emit (EvLog "Starting plugins installation process") w))
               else emit (EvMkdir PLUGINS)
                      (emit (EvLog "Starting plugins installation process") w))
              = w3) as (w3 & Hfs3 & Hnr3 & Hw3).
  { destruct (negb (length ex =? 0)); eexists; (split; [| split; [| done]]);
      try done; no_removal_steps. }
  intros Hrun. exists ti, ex, cp.
  assert (∃ (paths : gset string) (w4 : world),
            _install_plugins uc api cfg PLUGINS ti w3 = (Ok paths, w4)
            ∧ (let (o2, w5) :=
                 (if negb (bool_decide
                             (plugin_files PLUGINS (fs w)
                              ∖ listed_plugins (plugin_file_names repr cp)
                                  (plugin_files PLUGINS (fs w)) = ∅))
                  then
                    if String.eqb (remove_unlisted_plugins cfg) "yes"
                    then _remove_plugins
                           (plugin_files PLUGINS (fs w)
                            ∖ listed_plugins (plugin_file_names repr cp)
                                (plugin_files PLUGINS (fs w)))
                    else λ w0, (Ok tt,
                                emit (EvLog
                                        (unlisted_message
                                           (plugin_files PLUGINS (fs w)
                                            ∖ listed_plugins (plugin_file_names repr cp)
                                                (plugin_files PLUGINS (fs w)))))
                                  w0)
                  else λ w0, (Ok tt, w0)) w4 in
               match o2 with
               | Ok _ => (Ok (listed_plugins (plugin_file_names repr cp)
                                (plugin_files PLUGINS (fs w)), ex),
                          emit EvRestart w5)
               | Raise e => (Raise e, w5)
               | OutOfFuel => (OutOfFuel, w5)
               end) = (Ok r, w')) as (paths & w4 & Hinst & Htail).
  { rewrite <- Hw3.
    destruct (negb (length ex =? 0)); simpl in Hrun;
      match type of Hrun with
      | context [_install_plugins uc api cfg PLUGINS ti ?w0] =>
          destruct (_install_plugins uc api cfg PLUGINS ti w0)
            as [[paths | e |] w4]; simpl in Hrun; try done;
          by exists paths, w4
      end. }
  exists paths, w3, w4.
  split; [done |]. split; [done |]. split; [done |]. split; [done |].
  split; [done |].
  case_bool_decide as Hunl; simpl in Htail.
  - injection Htail as <- <-. split; [done |]. by left.
  - destruct (String.eqb (remove_unlisted_plugins cfg) "yes") eqn:Hyes.
    + apply String.eqb_eq in Hyes.
      destruct (_remove_plugins _ w4) as [[[] | e |] w5] eqn:Hrm;
        [| done | done].
      injection Htail as <- <-. split; [done |]. right; left. eauto.
    + apply String.eqb_neq in Hyes.
      injection Htail as <- <-. split; [done |]. right; right. eauto.
Qed.

(** ** The install decision *)

Lemma ne_str_spec (v : pyval) (s : string) :
  ne_str v s = true ↔ v ≠ PyStr s.
Proof.
  destruct v as [| | s']; simpl; [done | done |].
  rewrite negb_true_iff, String.eqb_neq. split; [congruence |].
  intros Hne Heq. apply Hne. by rewrite Heq.
Qed.

Lemma install_plugin_test (uc : UpdateCenter) (api : Api)
    (plugin : string) (update : bool) :
  negb (truthy (get_plugin_version api plugin))
  || update && ne_str (get_plugin_version api plugin)
                  (_get_latest_version uc plugin) = true
  ↔ reports_not_installed api plugin
    ∨ (update = true ∧ version_differs uc api plugin).
Proof.
  unfold reports_not_installed, version_differs.
  rewrite orb_true_iff, andb_true_iff, negb_true_iff, ne_str_spec.
  unfold _get_latest_version, _get_plugin_info. done.
Qed.

(** C7. The per-plugin decision: [_install_plugin] calls the download of
    the update center for the plugin if and only if the API reports the
    plugin as not installed (its answer is falsy), or auto-update is on
    and the installed version differs from the latest version of the
    index, the [version] of the data the index holds for the plugin.  When
    it does, its value and its effect on the plugin directory are those of
    the download; in every other case it returns [None], leaves the plugin
    directory as it was and makes no download at all. *)
Theorem install_plugin_decision (uc : UpdateCenter) (api : Api)
    (PLUGINS plugin : string) (update : bool) (w : world) :
  let run := _install_plugin uc api PLUGINS plugin update w in
  let wanted :=
    truthy (get_plugin_version api plugin) = false
    ∨ (update = true
       ∧ get_plugin_version api plugin
         ≠ PyStr (version (get_plugin_data uc plugin))) in
  ∃ new : list event,
    trace run.2 = trace w ++ new
    ∧ (EvDownload plugin PLUGINS ∈ new ↔ wanted)
    ∧ (wanted → (run.1, fs run.2) = download_plugin uc plugin PLUGINS (fs w))
    ∧ (¬ wanted →
       run.1 = Ok PyNone ∧ fs run.2 = fs w
       ∧ ∀ p d : string, EvDownload p d ∉ new).
Proof.
  intros run wanted. subst run wanted.
  pose proof (install_plugin_test uc api plugin update) as Htest.
  unfold reports_not_installed, version_differs in Htest.
  unfold _install_plugin.
  destruct (negb (truthy (get_plugin_version api plugin))
            || update && ne_str (get_plugin_version api plugin)
                           (_get_latest_version uc plugin)).
  - assert (truthy (get_plugin_version api plugin) = false
            ∨ update = true
              ∧ get_plugin_version api plugin
                ≠ PyStr (version (get_plugin_data uc plugin))) as Hw
      by by apply Htest.
    unfold_monad. unfold download. simpl.
    destruct (download_plugin uc plugin PLUGINS (fs w)) as [r f] eqn:Hdl.
    simpl. eexists [_; _]. split; [by rewrite <- app_assoc |].
    split; [| split; [done | done]].
    split; [done |]. intros _. set_solver.
  - assert (¬ (truthy (get_plugin_version api plugin) = false
               ∨ update = true
                 ∧ get_plugin_version api plugin
                   ≠ PyStr (version (get_plugin_data uc plugin)))) as Hw.
    { intros H. apply Htest in H. done. }
    unfold_monad. simpl. eexists [_]. split; [done |].
    split; [| split; [done |]].
    + split; [| done]. intros Hin. apply list_elem_of_singleton in Hin. done.
    + intros _. split; [done |]. split; [done |].
      intros p d Hin. apply list_elem_of_singleton in Hin. done.
Qed.

(** On the demo Jenkins [git] is not installed: it is downloaded.
    [instance-identity] is installed at 1.0 while the index has 2.0: it is
    downloaded when auto-update is on and skipped when it is off. *)
Lemma install_plugin_decision_witness :
  (_install_plugin Demo.uc Demo.api Demo.dir "git" false Demo.empty_world).1
  = Ok (PyStr "/var/lib/jenkins/plugins/git.jpi")
  ∧ (_install_plugin Demo.uc Demo.api Demo.dir "instance-identity" true
       Demo.empty_world).1
    = Ok (PyStr "/var/lib/jenkins/plugins/instance-identity.jpi")
  ∧ (_install_plugin Demo.uc Demo.api Demo.dir "instance-identity" false
       Demo.empty_world).1
    = Ok PyNone.
Proof.
  destruct (install_plugin_decision Demo.uc Demo.api Demo.dir "git" false
              Demo.empty_world) as (new1 & _ & _ & Hdl1 & _).
  destruct (install_plugin_decision Demo.uc Demo.api Demo.dir
              "instance-identity" true Demo.empty_world)
    as (new2 & _ & _ & Hdl2 & _).
  destruct (install_plugin_decision Demo.uc Demo.api Demo.dir
              "instance-identity" false Demo.empty_world)
    as (new3 & _ & _ & _ & Hskip).
  split; [| split].
  - refine (f_equal fst (Hdl1 _)). left. reflexivity.
  - refine (f_equal fst (Hdl2 _)). right. split; [reflexivity | discriminate].
  - apply Hskip. intros [Hf | [Hu _]]; discriminate.
Defined.

(** ** Removing plugin files *)

Lemma remove_plugins_run (paths : gset string) (w : world) :
  ∃ w' : world,
    _remove_plugins paths w = (Ok tt, w')
    ∧ (∀ p, fs w' !! p
            = if bool_decide (p ∈ paths ∧ fs w !! p = Some File)
              then None else fs w !! p)
    ∧ (∀ p, EvRemove p ∈ trace w'
            ↔ EvRemove p ∈ trace w ∨ (p ∈ paths ∧ fs w !! p = Some File)).
Proof.
  unfold _remove_plugins.
  destruct (remove_each_run (elements paths) w) as (w' & Hrun & _ & Hfs & Htr).
  exists w'. split; [done |]. split.
  - intros p. rewrite Hfs. repeat case_bool_decide; set_solver.
  - intros p. rewrite Htr. set_solver.
Qed.

(** C9. Removing a path that is not an existing regular file is a silent
    no-op: [_remove_plugin] returns normally and leaves the world as it
    was; on a regular file it returns normally with that file deleted; and
    [_remove_plugins] over any set of paths returns normally, having
    deleted exactly the paths of the set that were regular files. *)
Theorem remove_plugin_missing_is_noop :
  (∀ (path : string) (w : world),
     fs w !! path ≠ Some File → _remove_plugin path w = (Ok tt, w))
  ∧ (∀ (path : string) (w : world),
       fs w !! path = Some File →
       ∃ w' : world,
         _remove_plugin path w = (Ok tt, w')
         ∧ fs w' = delete path (fs w))
  ∧ (∀ (paths : gset string) (w : world),
       ∃ w' : world,
         _remove_plugins paths w = (Ok tt, w')
         ∧ ∀ p : string,
             fs w' !! p
             = if bool_decide (p ∈ paths ∧ fs w !! p = Some File)
               then None else fs w !! p).
Proof.
  split; [| split].
  - intros path w Hnot. rewrite remove_plugin_run.
    by rewrite bool_decide_false.
  - intros path w Hfile. rewrite remove_plugin_run.
    rewrite bool_decide_true by done. by eexists.
  - intros paths w.
    destruct (remove_plugins_run paths w) as (w' & Hrun & Hfs & _).
    by exists w'.
Qed.

(** A path that is not in the demo directory. *)
Lemma remove_plugin_missing_is_noop_witness :
  _remove_plugin "/var/lib/jenkins/plugins/absent.jpi" Demo.w0
  = (Ok tt, Demo.w0).
Proof.
  apply (proj1 remove_plugin_missing_is_noop).
  vm_compute. discriminate.
Defined.

(** ** Reconciling unlisted plugin files *)

Lemma demo_keeps_files : download_keeps_files Demo.uc.
Proof.
  intros plugin dst f path Hfile. simpl. unfold Demo.place. simpl.
  destruct (decide (dst +:+ "/" +:+ plugin +:+ ".jpi" = path)) as [-> | Hne].
  - by rewrite lookup_insert_eq.
  - by rewrite lookup_insert_ne.
Qed.

Lemma install_plugins_no_removal (uc : UpdateCenter) (api : Api)
    (cfg : config) (PLUGINS : string) (plugins : list string) :
  framed no_removal (_install_plugins uc api cfg PLUGINS plugins).
Proof.
  apply framed_install_plugins;
    auto using no_removal_refl, no_removal_emit, no_removal_download.
  apply no_removal_trans.
Qed.

Lemma install_plugins_keeps_files (uc : UpdateCenter) (api : Api)
    (cfg : config) (PLUGINS : string) (plugins : list string) :
  download_keeps_files uc →
  framed keeps_files (_install_plugins uc api cfg PLUGINS plugins).
Proof.
  intros Hkeep. apply framed_install_plugins;
    auto using keeps_files_refl, keeps_files_emit, keeps_files_download.
  apply keeps_files_trans.
Qed.

(** C6. Removal of unlisted plugin files is gated by the configuration:
    when [remove-unlisted-plugins] is not ["yes"], a run of [install]
    makes no call of [os.remove]; every regular file of the plugin
    directory is still there afterwards, as long as the downloads
    themselves delete none; and on a successful run the file system that
    [install] leaves is the one the download step left, untouched by the
    reconciliation of unlisted files. *)
Theorem removal_only_when_enabled (uc : UpdateCenter) (api : Api)
    (cfg : config) (PLUGINS : string) (repr : string → string)
    (fuel : nat) (plugins : option string) (w : world)
    (Hoff : remove_unlisted_plugins cfg ≠ "yes") :
  let run := install uc api cfg PLUGINS repr fuel plugins w in
  no_removal w run.2
  ∧ (download_keeps_files uc → keeps_files w run.2)
  ∧ (∀ r : gset string * list string,
       run.1 = Ok r →
       ∃ (to_install excluded : list string) (paths : gset string)
         (w3 w4 : world),
         _get_plugins_to_install uc api fuel (requested plugins)
         = Some (to_install, excluded)
         ∧ fs w3 = fs w
         ∧ _install_plugins uc api cfg PLUGINS to_install w3 = (Ok paths, w4)
         ∧ fs run.2 = fs w4).
Proof.
  intros run. subst run. apply String.eqb_neq in Hoff as Hoffb.
  split; [| split].
  - apply framed_install;
      auto using no_removal_refl, no_removal_emit, no_removal_download.
    apply no_removal_trans.
  - intros Hkeep. apply framed_install;
      auto using keeps_files_refl, keeps_files_emit, keeps_files_download.
    apply keeps_files_trans.
  - intros r Hr.
    destruct (install uc api cfg PLUGINS repr fuel plugins w) as [o w'] eqn:Hrun.
    simpl in Hr. subst o.
    apply install_inv in Hrun
      as (ti & ex & cp & paths & w3 & w4 & Hplan & _ & Hfs3 & _ & Hinst & _ & Hrec).
    exists ti, ex, paths, w3, w4. repeat (split; [done |]).
    simpl in Hrec. destruct Hrec as [[_ ->] | [(_ & Hyes & _) | (_ & _ & ->)]];
      done.
Qed.

(** The demo run with removal switched off. *)
Lemma removal_only_when_enabled_witness :
  no_removal Demo.w0
    (install Demo.uc Demo.api (Demo.cfg "no") Demo.dir Demo.repr 5
       (Some "git") Demo.w0).2
  ∧ keeps_files Demo.w0
      (install Demo.uc Demo.api (Demo.cfg "no") Demo.dir Demo.repr 5
         (Some "git") Demo.w0).2.
Proof.
  assert (remove_unlisted_plugins (Demo.cfg "no") ≠ "yes") as Hoff
    by (simpl; discriminate).
  destruct (removal_only_when_enabled Demo.uc Demo.api (Demo.cfg "no")
              Demo.dir Demo.repr 5 (Some "git") Demo.w0 Hoff)
    as (Hnr & Hkeep & _).
  split; [exact Hnr | exact (Hkeep demo_keeps_files)].
Defined.

(** What a run of [install] that returned has done with [unused.jpi]. *)
Lemma unused_reconciled_when_returned (uc : UpdateCenter) (api : Api)
    (cfg : config) (PLUGINS : string) (repr : string → string)
    (fuel : nat) (plugins : option string) (w w' : world)
    (r : gset string * list string)
    (Hkeep : download_keeps_files uc)
    (Hfile : fs w !! (PLUGINS +:+ "/unused.jpi") = Some File)
    (Hnot : ∀ cp : list string * list string,
        _get_plugins_to_install uc api fuel (PyList (split (cfg_plugins cfg)))
        = Some cp →
        "unused" ∉ cp.1)
    (Hrun : install uc api cfg PLUGINS repr fuel plugins w = (Ok r, w')) :
  (remove_unlisted_plugins cfg = "yes" →
   fs w' !! (PLUGINS +:+ "/unused.jpi") = None
   ∧ EvRemove (PLUGINS +:+ "/unused.jpi") ∈ trace w')
  ∧ (remove_unlisted_plugins cfg = "no" →
     fs w' !! (PLUGINS +:+ "/unused.jpi") = Some File
     ∧ no_removal w w'
     ∧ ∃ unlisted : gset string,
         PLUGINS +:+ "/unused.jpi" ∈ unlisted
         ∧ EvLog (unlisted_message unlisted) ∈ trace w'
         ∧ occurs_in (PLUGINS +:+ "/unused.jpi") (unlisted_message unlisted)).
Proof.
  apply install_inv in Hrun
    as (ti & ex & cp & paths & w3 & w4 & _ & _ & Hfs3 & Hnr3 & Hinst & _ & Hrec).
  simpl in Hrec.
  set (unlisted := plugin_files PLUGINS (fs w)
                   ∖ listed_plugins (plugin_file_names repr cp)
                       (plugin_files PLUGINS (fs w))) in *.
  assert (PLUGINS +:+ "/unused.jpi" ∈ unlisted) as Hunl.
  { apply elem_of_difference. split.
    - apply unused_in_glob. by rewrite Hfile.
    - apply unused_not_listed. }
  assert (fs w4 !! (PLUGINS +:+ "/unused.jpi") = Some File) as Hfile4.
  { pose proof (install_plugins_keeps_files uc api cfg PLUGINS ti Hkeep w3)
      as Hk. rewrite Hinst in Hk. apply Hk. by rewrite Hfs3. }
  assert (no_removal w w4) as Hnr4.
  { eapply no_removal_trans; [exact Hnr3 |].
    pose proof (install_plugins_no_removal uc api cfg PLUGINS ti w3) as Hn.
    by rewrite Hinst in Hn. }
  destruct Hrec as [[Hempty _] | [(_ & Hyes & w5 & Hrm & ->) | (_ & Hno & ->)]].
  - exfalso. rewrite Hempty in Hunl. by apply not_elem_of_empty in Hunl.
  - split; [intros _ | intros Hcfg; by rewrite Hcfg in Hyes].
    destruct (remove_plugins_run unlisted w4) as (w5' & Hrm' & Hfs5 & Htr5).
    rewrite Hrm in Hrm'. injection Hrm' as <-. simpl. split.
    + rewrite Hfs5. by rewrite bool_decide_true.
    + apply elem_of_app. left. apply Htr5. by right.
  - split; [done | intros _]. simpl. split; [done |]. split.
    + eapply no_removal_trans; [exact Hnr4 |].
      eapply no_removal_trans; by apply no_removal_emit.
    + exists unlisted. split; [done |]. split; [set_solver |].
      by apply occurs_in_unlisted_message.
Qed.

(** ** The value returned by install *)

(** The first component returned by [install] is not the set of plugin
    files now in the plugin directory: starting from an empty directory,
    [install("git")] downloads three packages and returns the empty set. *)
Lemma install_result_misses_downloads :
  let run := install Demo.uc Demo.api (Demo.cfg "no") Demo.dir Demo.repr 5
               (Some "git") Demo.empty_world in
  ∃ (installed : gset string) (excluded : list string),
    run.1 = Ok (installed, excluded)
    ∧ ("/var/lib/jenkins/plugins/git.jpi" ∈ plugin_files Demo.dir (fs run.2))
    ∧ ("/var/lib/jenkins/plugins/git.jpi" ∉ installed)
    ∧ installed ≠ plugin_files Demo.dir (fs run.2).
Proof.
  intros run.
  assert (run.1 = Ok (∅, [])) as Hok by (vm_compute; reflexivity).
  assert ("/var/lib/jenkins/plugins/git.jpi"
            ∈ plugin_files Demo.dir (fs run.2)) as Hin
    by (vm_compute; reflexivity).
  clearbody run. exists ∅, [].
  split; [exact Hok |]. split; [exact Hin |].
  split; [apply not_elem_of_empty |].
  intros Heq. rewrite <- Heq in Hin. by apply not_elem_of_empty in Hin.
Qed.

(** C5 (amended). On a successful run, [install] returns a pair whose
    second component is the excluded list of the planning step and whose
    first component is the part of the listing of the plugin directory,
    made before the downloads of this run, that the reconciliation step
    does not treat as unlisted: it is a subset of that listing, the files
    of it whose path ends in one of the names built from the configured
    plan; the files of the listing outside it are exactly what the run
    reconciles.  No file inside it is handed to [os.remove], and none at
    all unless removal is enabled; with removal enabled (downloads taken
    not to delete regular files) a regular file of the listing is still a
    regular file afterwards if and only if it is in the returned set;
    with removal not enabled the message logged names exactly the files
    of the listing outside the returned set. *)
Theorem install_returns_preexisting (uc : UpdateCenter) (api : Api)
    (cfg : config) (PLUGINS : string) (repr : string → string)
    (fuel : nat) (plugins : option string) (w : world)
    (installed : gset string) (excluded : list string)
    (Hok : (install uc api cfg PLUGINS repr fuel plugins w).1
           = Ok (installed, excluded)) :
  let w' := (install uc api cfg PLUGINS repr fuel plugins w).2 in
  let existing := plugin_files PLUGINS (fs w) in
  let unlisted := existing ∖ installed in
  installed ⊆ existing
  ∧ (∃ to_install : list string,
       _get_plugins_to_install uc api fuel (requested plugins)
       = Some (to_install, excluded))
  ∧ (∃ cp : list string * list string,
       _get_plugins_to_install uc api fuel (PyList (split (cfg_plugins cfg)))
       = Some cp
       ∧ ∀ path : string,
           path ∈ installed
           ↔ path ∈ existing
             ∧ endswith_any path (plugin_file_names repr cp) = true)
  ∧ (∀ path : string,
       EvRemove path ∈ trace w' →
       EvRemove path ∈ trace w
       ∨ (remove_unlisted_plugins cfg = "yes" ∧ path ∈ unlisted))
  ∧ (remove_unlisted_plugins cfg = "yes" →
     download_keeps_files uc →
     ∀ path : string,
       path ∈ existing → fs w !! path = Some File →
       (path ∈ installed ↔ fs w' !! path = Some File))
  ∧ (remove_unlisted_plugins cfg ≠ "yes" →
     unlisted ≠ ∅ →
     EvLog (unlisted_message unlisted) ∈ trace w').
Proof.
  destruct (install uc api cfg PLUGINS repr fuel plugins w) as [o w1] eqn:Hrun.
  simpl in Hok. subst o. simpl.
  apply install_inv in Hrun
    as (ti & ex & cp & paths & w3 & w4 & Hplan & Hconf & Hfs3 & Hnr3 & Hinst
        & Hr & Hrec).
  injection Hr as -> ->. simpl in Hrec.
  set (existing := plugin_files PLUGINS (fs w)) in *.
  set (installed := listed_plugins (plugin_file_names repr cp) existing) in *.
  set (unlisted := existing ∖ installed) in *.
  assert (∀ path, path ∈ installed
                  ↔ path ∈ existing
                    ∧ endswith_any path (plugin_file_names repr cp) = true)
    as Hmem.
  { intros path. unfold installed, listed_plugins.
    rewrite elem_of_filter. tauto. }
  assert (no_removal w w4) as (new & Hnew & Hnone).
  { eapply no_removal_trans; [exact Hnr3 |].
    pose proof (install_plugins_no_removal uc api cfg PLUGINS ti w3) as Hn.
    by rewrite Hinst in Hn. }
  assert (∀ path, EvRemove path ∈ trace w4 → EvRemove path ∈ trace w)
    as Hbefore.
  { intros path. rewrite Hnew, elem_of_app.
    intros [Hp | Hp]; [done | by apply Hnone in Hp]. }
  split; [intros x Hx; by apply Hmem in Hx as [Hx _] |].
  split; [by exists ti |].
  split; [by exists cp |].
  destruct Hrec as [[Hempty ->] | [(Hne & Hyes & w5 & Hrm & ->)
                                  | (Hne & Hno & ->)]].
  - split; [| split].
    + intros path Hp. left. apply Hbefore. simpl in Hp.
      apply elem_of_app in Hp as [Hp | Hp]; [done |].
      by apply list_elem_of_singleton in Hp.
    + intros _ Hkeep path Hex Hfile. simpl.
      assert (fs w4 !! path = Some File) as Hfile4.
      { pose proof (install_plugins_keeps_files uc api cfg PLUGINS ti Hkeep w3)
          as Hk. rewrite Hinst in Hk. apply Hk. by rewrite Hfs3. }
      split; [done | intros _].
      destruct (decide (path ∈ installed)) as [| Hout]; [done |].
      exfalso. assert (path ∈ unlisted) as Hin
        by (by apply elem_of_difference).
      rewrite Hempty in Hin. by apply not_elem_of_empty in Hin.
    + by intros _ Hne.
  - destruct (remove_plugins_run unlisted w4) as (w5' & Hrm' & Hfs5 & Htr5).
    rewrite Hrm in Hrm'. injection Hrm' as <-.
    split; [| split].
    + intros path Hp. simpl in Hp.
      apply elem_of_app in Hp as [Hp | Hp];
        [| by apply list_elem_of_singleton in Hp].
      apply Htr5 in Hp as [Hp | [Hp _]]; [left; by apply Hbefore | by right].
    + intros _ Hkeep path Hex Hfile. simpl.
      assert (fs w4 !! path = Some File) as Hfile4.
      { pose proof (install_plugins_keeps_files uc api cfg PLUGINS ti Hkeep w3)
          as Hk. rewrite Hinst in Hk. apply Hk. by rewrite Hfs3. }
      rewrite Hfs5. case_bool_decide as Hcase.
      * destruct Hcase as [Hin _].
        apply elem_of_difference in Hin as [_ Hout]. by split.
      * split; [done | intros _].
        destruct (decide (path ∈ installed)) as [| Hout]; [done |].
        exfalso. apply Hcase. split; [by apply elem_of_difference | done].
    + intros Hno. by rewrite Hyes in Hno.
  - split; [| split].
    + intros path Hp. left. apply Hbefore. simpl in Hp.
      apply elem_of_app in Hp as [Hp | Hp];
        [| by apply list_elem_of_singleton in Hp].
      apply elem_of_app in Hp as [Hp | Hp]; [done |].
      by apply list_elem_of_singleton in Hp.
    + intros Hyes. by rewrite Hyes in Hno.
    + intros _ _. simpl. apply elem_of_app. left.
      apply elem_of_app. right. by apply list_elem_of_singleton.
Qed.

(** A directory that holds [git.jpi] and a file named [[].jpi], with
    [git] configured, removal enabled, and [foo], which the running core
    is too old for, requested along with [git]: the set returned holds
    the second file alone, and the first one is gone afterwards. *)
Lemma install_returns_preexisting_witness :
  let w := {| fs := {[ "/var/lib/jenkins/plugins/git.jpi" := File;
                       "/var/lib/jenkins/plugins/[].jpi" := File ]};
              environ := ∅; trace := [] |} in
  let run := install Demo.uc Demo.api (Demo.cfg "yes") Demo.dir Demo.repr 5
               (Some "git foo") w in
  run.1 = Ok ({[ "/var/lib/jenkins/plugins/[].jpi" ]}, ["foo"])
  ∧ ({[ "/var/lib/jenkins/plugins/[].jpi" ]} : gset string)
    ⊆ plugin_files Demo.dir (fs w)
  ∧ fs run.2 !! "/var/lib/jenkins/plugins/[].jpi" = Some File
  ∧ fs run.2 !! "/var/lib/jenkins/plugins/git.jpi" ≠ Some File
  ∧ (∀ path : string,
       EvRemove path ∈ trace run.2 →
       path ∈ plugin_files Demo.dir (fs w)
              ∖ {[ "/var/lib/jenkins/plugins/[].jpi" ]}).
Proof.
  intros w run.
  assert (run.1 = Ok ({[ "/var/lib/jenkins/plugins/[].jpi" ]}, ["foo"]))
    as Hok by (vm_compute; reflexivity).
  assert ("/var/lib/jenkins/plugins/[].jpi" ∈ plugin_files Demo.dir (fs w))
    as Hin1 by (vm_compute; reflexivity).
  assert ("/var/lib/jenkins/plugins/git.jpi" ∈ plugin_files Demo.dir (fs w))
    as Hin2 by (vm_compute; reflexivity).
  assert (fs w !! "/var/lib/jenkins/plugins/[].jpi" = Some File) as Hf1
    by (vm_compute; reflexivity).
  assert (fs w !! "/var/lib/jenkins/plugins/git.jpi" = Some File) as Hf2
    by (vm_compute; reflexivity).
  assert (trace w = []) as Htr by reflexivity.
  assert ("/var/lib/jenkins/plugins/git.jpi"
            ∉ ({[ "/var/lib/jenkins/plugins/[].jpi" ]} : gset string))
    as Hout by (intros Heq; apply elem_of_singleton in Heq; discriminate Heq).
  destruct (install_returns_preexisting Demo.uc Demo.api (Demo.cfg "yes")
              Demo.dir Demo.repr 5 (Some "git foo") w
              {[ "/var/lib/jenkins/plugins/[].jpi" ]} ["foo"] Hok)
    as (Hsub & _ & _ & Hrem & Hfiles & _).
  pose proof (Hfiles eq_refl demo_keeps_files) as Hiff.
  split; [exact Hok |]. split; [exact Hsub |]. split; [| split].
  - refine (proj1 (Hiff _ Hin1 Hf1) _). apply elem_of_singleton. reflexivity.
  - intros Hfile. apply Hout. exact (proj2 (Hiff _ Hin2 Hf2) Hfile).
  - intros path Hp. destruct (Hrem path Hp) as [Hold | [_ Hunl]]; [| exact Hunl].
    rewrite Htr in Hold. exact (False_ind _ (proj1 (elem_of_nil _) Hold)).
Defined.

(** The names that [install] compares the files with are built from the
    two lists of the planner, not from the plugin names in them: a file of
    a configured plugin is treated as unlisted.  Here [git] is configured
    and [git.jpi] is in the directory; with removal enabled the run ends
    without the file. *)
Example configured_plugin_file_removed :
  let w := {| fs := {[ "/var/lib/jenkins/plugins/git.jpi" := File ]};
              environ := ∅; trace := [] |} in
  let run := install Demo.uc Demo.api (Demo.cfg "yes") Demo.dir Demo.repr 5
               (Some "git") w in
  plugin_file_names Demo.repr (["git"; "scm-api"; "credentials"], [])
  = ["/['git', 'scm-api', 'credentials'].jpi"; "/[].jpi"]
  ∧ run.1 = Ok (∅, [])
  ∧ fs run.2 !! "/var/lib/jenkins/plugins/git.jpi" = None
  ∧ EvRemove "/var/lib/jenkins/plugins/git.jpi" ∈ trace run.2.
Proof.
  intros w run. split; [reflexivity |].
  split; [vm_compute; reflexivity |]. split; [vm_compute; reflexivity |].
  apply list_elem_of_In. vm_compute. tauto.
Qed.

(** ** Construction *)

(** The outcome of the constructor for a plugin site other than the
    default one: only [HTTPError] is translated. *)
Lemma init_custom_site_outcome (cfg : config)
    (urlopen : string → outcome unit)
    (new_UpdateCenter : option string → outcome UpdateCenter) (w : world) :
  String.eqb (plugins_site cfg) "https://updates.jenkins-ci.org/latest/"
  = false →
  (__init__ cfg urlopen new_UpdateCenter w).1
  = match urlopen (plugins_site cfg +:+ "/update-center.json") with
    | Ok _ =>
        match new_UpdateCenter
                (Some (plugins_site cfg +:+ "/update-center.json")) with
        | Raise HTTPError => Raise PluginSiteError
        | o => o
        end
    | Raise HTTPError => Raise PluginSiteError
    | Raise e => Raise e
    | OutOfFuel => OutOfFuel
    end.
Proof.
  intros Hsite. unfold __init__, set_proxy, lift, setenv, popenv.
  rewrite Hsite. unfold_monad.
  destruct proxy_address as [a |]; [destruct (nonempty a) |]; simpl;
    (destruct (urlopen _) as [[] | [] |]; simpl; try done;
     destruct (new_UpdateCenter _) as [u | [] |]; simpl; done).
Qed.

(** C8. What [Plugins.__init__] does when the manifest of a plugin site
    of one's own cannot be fetched: an HTTP error status is turned into
    [PluginSiteError], while a site that cannot be contacted at all makes
    the constructor raise [URLError]. *)
Theorem init_site_out_of_reach :
  (__init__ Demo.site_cfg Demo.answers_404 Demo.new_uc Demo.empty_world).1
  = Raise PluginSiteError
  ∧ (__init__ Demo.site_cfg Demo.no_route Demo.new_uc Demo.empty_world).1
    = Raise URLError.
Proof. split; reflexivity. Qed.


(** * Further properties *)

(** ** The compatibility filter, name by name *)

Lemma filter_not_in_filter (Q : string → bool) (l : list string) :
  ∀ l' : list string,
    (∀ x, x ∈ l' → x ∈ l) →
    filter (λ p, p ∉ filter (λ q, Q q = false) l) l'
    = filter (λ p, Q p = true) l'.
Proof.
  induction l' as [| x l' IH]; intros Hsub; [done |].
  rewrite !filter_cons. rewrite IH by (intros y Hy; apply Hsub; by right).
  assert (x ∈ l) as Hx by (apply Hsub; by left).
  destruct (Q x) eqn:HQ.
  - rewrite decide_True; [by rewrite decide_True |].
    rewrite list_elem_of_filter. intros [Hf _]. congruence.
  - rewrite decide_False; [by rewrite decide_False |].
    intros Hn. apply Hn. by apply list_elem_of_filter.
Qed.

Lemma exclude_lists (uc : UpdateCenter) (api : Api) :
  (∀ l : list string,
     _exclude_incompatible_plugins uc api (PyList l)
     = (filter (λ p, compatible uc api p = true) l,
        filter (λ p, compatible uc api p = false) l))
  ∧ (∀ s : gset string,
       _exclude_incompatible_plugins uc api (PySet s)
       = (filter (λ p, compatible uc api p = true) (elements s),
          filter (λ p, compatible uc api p = false) (elements s)))
  ∧ (∀ l : list string,
       _exclude_incompatible_plugins uc api (Chain l)
       = ([], filter (λ p, compatible uc api p = false) l)).
Proof.
  unfold _exclude_incompatible_plugins, compatible. simpl.
  split; [| split].
  - intros l. f_equal. by apply (filter_not_in_filter _ l l).
  - intros s. f_equal. by apply (filter_not_in_filter _ (elements s)).
  - done.
Qed.

(** X1. The filter keeps the order of its argument and decides each name by
    the core-version test alone: for a list or a set the names to install
    are the compatible ones, in the order they are run through, and the
    excluded ones are the others; an iterator is used up by the first
    pass, so that nothing is left to install. *)
Theorem exclude_by_compatibility (uc : UpdateCenter) (api : Api) :
  (∀ l : list string,
     _exclude_incompatible_plugins uc api (PyList l)
     = (filter (λ p, compatible uc api p = true) l,
        filter (λ p, compatible uc api p = false) l))
  ∧ (∀ s : gset string,
       _exclude_incompatible_plugins uc api (PySet s)
       = (filter (λ p, compatible uc api p = true) (elements s),
          filter (λ p, compatible uc api p = false) (elements s)))
  ∧ (∀ l : list string,
       _exclude_incompatible_plugins uc api (Chain l)
       = ([], filter (λ p, compatible uc api p = false) l)).
Proof.
  unfold _exclude_incompatible_plugins, compatible. simpl.
  split; [| split].
  - intros l. f_equal. by apply (filter_not_in_filter _ l l).
  - intros s. f_equal. by apply (filter_not_in_filter _ (elements s)).
  - done.
Qed.

(** ** What the planner answers *)

Lemma plan_fixed_point (uc : UpdateCenter) (api : Api) (fuel : nat) :
  ∀ (plugins : iterable) (r : list string * list string),
    _get_plugins_to_install uc api fuel plugins = Some r →
    ∃ s : gset string,
      get_plugins uc (elements s) = s
      ∧ r = _exclude_incompatible_plugins uc api (PySet s)
      ∧ ((∀ l : list string, list_to_set l ⊆ get_plugins uc l) →
         list_to_set (iterate plugins) ⊆ s).
Proof.
  induction fuel as [| fuel IH]; intros plugins r; simpl; [done |].
  destruct (eq_set plugins (get_plugins uc (iterate plugins))) eqn:Heq.
  - destruct plugins as [l | l | s]; simpl in Heq; try done.
    apply bool_decide_eq_true in Heq. intros [= <-].
    exists s. simpl. split; [done |]. split; [done |].
    intros _. by rewrite list_to_set_elements_L.
  - intros Hr. destruct (IH _ _ Hr) as (s & Hfix & Hres & Hsub).
    exists s. split; [done |]. split; [done |].
    intros Hsup. specialize (Hsub Hsup). simpl in Hsub.
    rewrite list_to_set_elements_L in Hsub.
    pose proof (Hsup (iterate plugins)). set_solver.
Qed.

Lemma plan_lists (uc : UpdateCenter) (api : Api) (fuel : nat)
    (plugins : iterable) (to_install excluded : list string)
    (Hplan : _get_plugins_to_install uc api fuel plugins
             = Some (to_install, excluded)) :
  ∃ s : gset string,
    get_plugins uc (elements s) = s
    ∧ to_install = filter (λ p, compatible uc api p = true) (elements s)
    ∧ excluded = filter (λ p, compatible uc api p = false) (elements s).
Proof.
  destruct (plan_fixed_point uc api fuel _ _ Hplan) as (s & Hfix & Hres & _).
  rewrite (proj1 (proj2 (exclude_lists uc api)) s) in Hres.
  injection Hres as -> ->. by exists s.
Qed.

(** X2. Every answer of the planner is made of one set [s] of names that the
    index maps to itself: the names to install are the compatible names of
    [s], the excluded ones are the incompatible names of [s], no name
    occurs twice in the two lists taken together, and, when the index
    answers with a superset of what it is asked, every requested name is in
    one of the two lists, however often the request repeats it. *)
Theorem plan_answer (uc : UpdateCenter) (api : Api) (fuel : nat)
    (plugins : iterable) (to_install excluded : list string)
    (Hplan : _get_plugins_to_install uc api fuel plugins
             = Some (to_install, excluded)) :
  ∃ s : gset string,
    get_plugins uc (elements s) = s
    ∧ to_install = filter (λ p, compatible uc api p = true) (elements s)
    ∧ excluded = filter (λ p, compatible uc api p = false) (elements s)
    ∧ NoDup (to_install ++ excluded)
    ∧ (∀ p : string, p ∈ s ↔ p ∈ to_install ∨ p ∈ excluded)
    ∧ ((∀ l : list string, list_to_set l ⊆ get_plugins uc l) →
       ∀ p : string, p ∈ iterate plugins → p ∈ to_install ∨ p ∈ excluded).
Proof.
  destruct (plan_fixed_point uc api fuel _ _ Hplan) as (s & Hfix & Hres & Hsub).
  rewrite (proj1 (proj2 (exclude_lists uc api)) s) in Hres.
  injection Hres as -> ->.
  assert (∀ p : string,
            p ∈ s ↔ p ∈ filter (λ p, compatible uc api p = true) (elements s)
                    ∨ p ∈ filter (λ p, compatible uc api p = false) (elements s))
    as Hmem.
  { intros p. rewrite !list_elem_of_filter, elem_of_elements.
    destruct (compatible uc api p); naive_solver. }
  exists s. split; [done |]. split; [done |]. split; [done |]. split; [| split].
  - apply NoDup_app. split; [| split].
    + apply NoDup_filter, NoDup_elements.
    + intros p. rewrite !list_elem_of_filter. intros [H1 _] [H2 _]. congruence.
    + apply NoDup_filter, NoDup_elements.
  - exact Hmem.
  - intros Hsup p Hp. apply Hmem. apply (Hsub Hsup).
    by apply elem_of_list_to_set.
Qed.

(** On the demo index, a request that names [git] twice. *)
Lemma plan_answer_witness :
  ∃ s : gset string,
    get_plugins Demo.uc (elements s) = s
    ∧ NoDup (["git"; "scm-api"; "credentials"; "instance-identity"] ++ ["foo"])
    ∧ ("foo" ∈ ["git"; "scm-api"; "credentials"; "instance-identity"]
       ∨ "foo" ∈ ["foo"]).
Proof.
  assert (_get_plugins_to_install Demo.uc Demo.api 5
            (requested (Some "git foo git"))
          = Some (["git"; "scm-api"; "credentials"; "instance-identity"],
                  ["foo"])) as Hplan by (vm_compute; reflexivity).
  destruct (plan_answer Demo.uc Demo.api 5 _ _ _ Hplan)
    as (s & Hfix & _ & _ & Hnd & _ & Hreq).
  exists s. split; [exact Hfix |]. split; [exact Hnd |].
  apply (Hreq demo_superset). apply list_elem_of_In. vm_compute. tauto.
Defined.

(** ** Installing a batch of plugins *)

Lemma install_plugin_run (uc : UpdateCenter) (api : Api)
    (PLUGINS plugin : string) (update : bool) (w : world) :
  _install_plugin uc api PLUGINS plugin update w
  = if wants_download uc api update plugin
    then download uc PLUGINS plugin
           (emit (EvLog ("Installing plugin " +:+ plugin +:+ "-"
                         +:+ _get_latest_version uc plugin)) w)
    else (Ok PyNone,
          emit (EvLog ("Plugin " +:+ plugin +:+ "-"
                       +:+ str (get_plugin_version api plugin)
                       +:+ " already installed")) w).
Proof.
  unfold _install_plugin, wants_download.
  by destruct (negb (truthy (get_plugin_version api plugin))
               || update && ne_str (get_plugin_version api plugin)
                              (_get_latest_version uc plugin)).
Qed.

Lemma download_trace (uc : UpdateCenter) (PLUGINS plugin : string) (w : world) :
  trace (download uc PLUGINS plugin w).2
  = trace w ++ [EvDownload plugin PLUGINS].
Proof.
  unfold download.
  by destruct (download_plugin uc plugin PLUGINS
                 (fs (emit (EvDownload plugin PLUGINS) w))).
Qed.

Lemma downloads_of_app (t1 t2 : list event) :
  downloads_of (t1 ++ t2) = downloads_of t1 ++ downloads_of t2.
Proof. apply omap_app. Qed.

(** The loop of [_install_plugins]. *)
Lemma install_loop (uc : UpdateCenter) (api : Api) (PLUGINS : string)
    (update : bool) (l : list string) :
  ∀ (acc : gset string) (w : world) (o : outcome (gset string)) (w' : world),
    for_each l acc
      (λ plugin plugin_paths,
         plugin_path ← _install_plugin uc api PLUGINS plugin update;
         match plugin_path with
         | PyNone => mret plugin_paths
         | _ =>
             if truthy plugin_path
             then mret ({[str plugin_path]} ∪ plugin_paths)
             else log ("Failed to download " +:+ plugin);;
                  mret plugin_paths
         end) w = (o, w') →
    ∃ new : list event,
      trace w' = trace w ++ new
      ∧ Forall (λ e, ∃ x, e = EvLog x ∨ e = EvDownload x PLUGINS) new
      ∧ downloads_of new
          `prefix_of` filter (λ p, wants_download uc api update p = true) l
      ∧ (∀ paths, o = Ok paths →
           downloads_of new
           = filter (λ p, wants_download uc api update p = true) l).
Proof.
  induction l as [| p l IH]; intros acc w o w'; simpl.
  - intros [= <- <-]. exists []. rewrite app_nil_r. repeat split; try done.
  - unfold mbind at 1. unfold M_bind at 1. unfold bind at 1.
    unfold mbind at 1. unfold M_bind at 1. unfold bind at 1.
    rewrite install_plugin_run. rewrite filter_cons.
    destruct (wants_download uc api update p) eqn:Hw.
    + rewrite decide_True by done.
      match goal with
      | |- context [download uc PLUGINS p ?x] => set (w1 := x)
      end.
      pose proof (download_trace uc PLUGINS p w1) as Htr.
      destruct (download uc PLUGINS p w1) as [[v | e |] w2]; simpl in Htr.
      * assert (∃ (acc' : gset string) (w3 : world) (logs : list event),
                  (match v with
                   | PyNone => mret acc
                   | _ => if truthy v then mret ({[str v]} ∪ acc)
                          else log ("Failed to download " +:+ p);; mret acc
                   end) w2 = (Ok acc', w3)
                  ∧ trace w3 = trace w2 ++ logs
                  ∧ Forall (λ e, ∃ x, e = EvLog x ∨ e = EvDownload x PLUGINS) logs
                  ∧ downloads_of logs = []) as (acc' & w3 & logs & -> & Hw3 & Hlogs & Hdl).
        { destruct v as [| | s]; simpl.
          - exists acc, w2, []. by rewrite app_nil_r.
          - eexists acc, _, [_]. unfold_monad. simpl. repeat split; eauto.
          - destruct (negb (String.eqb s "")).
            + eexists _, w2, []. unfold_monad. by rewrite app_nil_r.
            + eexists acc, _, [_]. unfold_monad. simpl. repeat split; eauto. }
        intros Hrun.
        destruct (IH acc' w3 o w' Hrun) as (new & Hnew & Hall & Hpre & Hok).
        eexists (_ :: _ :: logs ++ new). split; [| split; [| split]].
        -- rewrite Hnew, Hw3, Htr. subst w1. simpl.
           by rewrite <- !app_assoc.
        -- repeat constructor; eauto. apply Forall_app; split; done.
        -- simpl. rewrite downloads_of_app, Hdl. simpl.
           by apply prefix_cons.
        -- intros paths Hp. simpl. rewrite downloads_of_app, Hdl. simpl.
           f_equal. by eapply Hok.
      * intros [= <- <-]. eexists [_; _]. split; [| split; [| split]].
        -- rewrite Htr. subst w1. simpl. by rewrite <- app_assoc.
        -- repeat constructor; eauto.
        -- simpl. apply prefix_cons, prefix_nil.
        -- done.
      * intros [= <- <-]. eexists [_; _]. split; [| split; [| split]].
        -- rewrite Htr. subst w1. simpl. by rewrite <- app_assoc.
        -- repeat constructor; eauto.
        -- simpl. apply prefix_cons, prefix_nil.
        -- done.
    + rewrite decide_False by done.
      simpl. unfold mret, M_ret, ret. intros Hrun.
      destruct (IH _ _ _ _ Hrun) as (new & Hnew & Hall & Hpre & Hok).
      eexists (_ :: new). split; [| split; [| split]].
      * rewrite Hnew. simpl. by rewrite <- app_assoc.
      * constructor; eauto.
      * done.
      * done.
Qed.

Lemma install_plugins_trace (uc : UpdateCenter) (api : Api) (cfg : config)
    (PLUGINS : string) (plugins : list string) (w : world)
    (o : outcome (gset string)) (w' : world) :
  _install_plugins uc api cfg PLUGINS plugins w = (o, w') →
  ∃ new : list event,
    trace w' = trace w ++ new
    ∧ Forall (λ e, (∃ x, e = EvLog x ∨ e = EvDownload x PLUGINS)
                   ∨ e = EvChownr PLUGINS) new
    ∧ downloads_of new
        `prefix_of` filter (λ p, wants_download uc api
                                   (plugins_auto_update cfg) p = true) plugins
    ∧ (∀ paths, o = Ok paths →
         downloads_of new
         = filter (λ p, wants_download uc api
                          (plugins_auto_update cfg) p = true) plugins
         ∧ last new = Some (EvChownr PLUGINS))
    ∧ ((∀ paths, o ≠ Ok paths) → EvChownr PLUGINS ∉ new).
Proof.
  unfold _install_plugins.
  unfold mbind at 1. unfold M_bind at 1. unfold bind at 1.
  unfold log at 1.
  unfold mbind at 1. unfold M_bind at 1. unfold bind at 1.
  match goal with
  | |- context [for_each plugins ∅ ?b ?w1] =>
      destruct (for_each plugins ∅ b w1) as [o1 w2] eqn:Hloop
  end.
  apply install_loop in Hloop as (new & Hnew & Hall & Hpre & Hok).
  simpl in Hnew.
  assert (Forall (λ e, (∃ x, e = EvLog x ∨ e = EvDownload x PLUGINS)
                       ∨ e = EvChownr PLUGINS) new) as Hall'.
  { eapply Forall_impl; [exact Hall |]. intros e He. by left. }
  assert (EvChownr PLUGINS ∉ new) as Hnc.
  { intros Hin. rewrite Forall_forall in Hall.
    destruct (Hall _ Hin) as [x [Hx | Hx]]; done. }
  destruct o1 as [paths | e |]; unfold_monad; simpl.
  - intros [= <- <-]. eexists (_ :: new ++ [_]).
    split; [| split; [| split; [| split]]].
    + simpl. rewrite Hnew. by rewrite <- !app_assoc.
    + constructor; [left; eauto |]. apply Forall_app. split; [done |].
      constructor; [by right | done].
    + simpl. rewrite downloads_of_app. simpl. by rewrite app_nil_r.
    + intros paths' _. simpl. rewrite downloads_of_app. simpl.
      rewrite app_nil_r. split; [by eapply Hok |].
      change (last ((EvLog ("Installing plugins (" +:+ join " " plugins +:+ ")")
                     :: new) ++ [EvChownr PLUGINS])
              = Some (EvChownr PLUGINS)).
      apply last_snoc.
    + intros Hne. by destruct (Hne paths).
  - intros [= <- <-]. eexists (_ :: new).
    split; [| split; [| split; [| split]]].
    + simpl. rewrite Hnew. by rewrite <- !app_assoc.
    + constructor; [left; eauto | done].
    + done.
    + done.
    + intros _ Hin. apply elem_of_cons in Hin as [Hin | Hin]; done.
  - intros [= <- <-]. eexists (_ :: new).
    split; [| split; [| split; [| split]]].
    + simpl. rewrite Hnew. by rewrite <- !app_assoc.
    + constructor; [left; eauto | done].
    + done.
    + done.
    + intros _ Hin. apply elem_of_cons in Hin as [Hin | Hin]; done.
Qed.

(** X3. The downloads of a batch are made in the order of the list, for the
    plugins that are not installed or are due an update and for no other:
    the trace of [_install_plugins] records downloads for a prefix of
    those names.  When the batch returns, all of them have been tried,
    whatever each download answered, and the last call made is the one
    that hands the plugin directory to jenkins; when it does not return,
    that call is never made. *)
Theorem install_plugins_downloads (uc : UpdateCenter) (api : Api)
    (cfg : config) (PLUGINS : string) (plugins : list string) (w : world) :
  let run := _install_plugins uc api cfg PLUGINS plugins w in
  let needed :=
    filter (λ p, wants_download uc api (plugins_auto_update cfg) p = true)
           plugins in
  ∃ new : list event,
    trace run.2 = trace w ++ new
    ∧ downloads_of new `prefix_of` needed
    ∧ (∀ paths : gset string,
         run.1 = Ok paths →
         downloads_of new = needed ∧ last new = Some (EvChownr PLUGINS))
    ∧ ((∀ paths : gset string, run.1 ≠ Ok paths) →
       EvChownr PLUGINS ∉ new).
Proof.
  intros run needed. subst run needed.
  destruct (_install_plugins uc api cfg PLUGINS plugins w) as [o w'] eqn:Hrun.
  apply install_plugins_trace in Hrun as (new & Hnew & _ & Hpre & Hok & Hfail).
  exists new. simpl. done.
Qed.

Lemma install_loop_returns (uc : UpdateCenter) (api : Api) (PLUGINS : string)
    (update : bool)
    (Hnr : ∀ (p : string) (f : gmap string kind),
        ∃ (v : pyval) (f' : gmap string kind),
          download_plugin uc p PLUGINS f = (Ok v, f'))
    (l : list string) :
  ∀ (acc : gset string) (w : world),
("" ∉ acc) →
    ∃ (paths : gset string) (w' : world),
      for_each l acc
        (λ plugin plugin_paths,
           plugin_path ← _install_plugin uc api PLUGINS plugin update;
           match plugin_path with
           | PyNone => mret plugin_paths
           | _ =>
               if truthy plugin_path
               then mret ({[str plugin_path]} ∪ plugin_paths)
               else log ("Failed to download " +:+ plugin);;
                    mret plugin_paths
           end) w = (Ok paths, w')
      ∧ ("" ∉ paths)
      ∧ (∀ e, e ∈ trace w → e ∈ trace w')
      ∧ (∀ p, p ∈ l → wants_download uc api update p = true →
           (∀ f, (download_plugin uc p PLUGINS f).1 = Ok PyFalse) →
           EvLog ("Failed to download " +:+ p) ∈ trace w').
Proof.
  induction l as [| p l IH]; intros acc w Hacc; simpl.
  - exists acc, w. repeat split; try done. intros q Hq. by apply elem_of_nil in Hq.
  - unfold mbind at 1. unfold M_bind at 1. unfold bind at 1.
    unfold mbind at 1. unfold M_bind at 1. unfold bind at 1.
    rewrite install_plugin_run.
    destruct (wants_download uc api update p) eqn:Hw.
    + unfold download.
      match goal with
      | |- context [download_plugin uc p PLUGINS ?f] =>
          destruct (Hnr p f) as (v & f' & Hdl); rewrite Hdl
      end.
      match goal with
      | |- context [set_fs f' ?x] => set (w2 := set_fs f' x)
      end.
      assert (∃ (acc' : gset string) (w3 : world),
                (match v with
                 | PyNone => mret acc
                 | _ => if truthy v then mret ({[str v]} ∪ acc)
                        else log ("Failed to download " +:+ p);; mret acc
                 end) w2 = (Ok acc', w3)
                ∧ ("" ∉ acc')
                ∧ (∀ e, e ∈ trace w2 → e ∈ trace w3)
                ∧ (v = PyFalse →
                   EvLog ("Failed to download " +:+ p) ∈ trace w3))
        as (acc' & w3 & -> & Hacc' & Hmono & Hlog).
      { destruct v as [| | s]; simpl.
        - exists acc, w2. done.
        - eexists acc, _. unfold_monad. simpl. repeat split; [done | |].
          + intros e He. apply elem_of_app. by left.
          + intros _. apply elem_of_app. right. by apply list_elem_of_singleton.
        - destruct (String.eqb s "") eqn:Hs; simpl.
          + eexists acc, _. unfold_monad. simpl. repeat split; [done | | done].
            intros e He. apply elem_of_app. by left.
          + apply String.eqb_neq in Hs.
            eexists _, w2. unfold_monad. repeat split; [| done | done].
            set_solver. }
      destruct (IH acc' w3 Hacc') as (paths & w' & Hrun & Hp & Hmono' & Hlogs).
      exists paths, w'. split; [exact Hrun |]. split; [done |]. split.
      * intros e He. apply Hmono', Hmono. subst w2. simpl.
        apply elem_of_app. left. apply elem_of_app. by left.
      * intros q Hq Hwq Hfalse. apply elem_of_cons in Hq as [-> | Hq].
        -- apply Hmono', Hlog.
           pose proof (Hfalse (fs (emit (EvDownload p PLUGINS)
                                     (emit (EvLog ("Installing plugin " +:+ p
                                                   +:+ "-"
                                                   +:+ _get_latest_version uc p))
                                        w)))) as Hf.
           rewrite Hdl in Hf. simpl in Hf. congruence.
        -- by apply Hlogs.
    + simpl. unfold mret, M_ret, ret.
      match goal with
      | |- context [for_each l acc ?b ?w1] =>
          destruct (IH acc w1 Hacc) as (paths & w' & Hrun & Hp & Hmono & Hlogs)
      end.
      exists paths, w'. split; [exact Hrun |]. split; [done |]. split.
      * intros e He. apply Hmono. simpl. apply elem_of_app. by left.
      * intros q Hq Hwq Hfalse. apply elem_of_cons in Hq as [-> | Hq].
        -- congruence.
        -- by apply Hlogs.
Qed.




(** ** The course of install *)

Lemma install_unfold (uc : UpdateCenter) (api : Api) (cfg : config)
    (PLUGINS : string) (repr : string → string) (fuel : nat)
    (plugins : option string) (w : world) :
  install uc api cfg PLUGINS repr fuel plugins w
  = match _get_plugins_to_install uc api fuel (requested plugins) with
    | None => (OutOfFuel, emit (EvLog "Starting plugins installation process") w)
    | Some (to_install, excluded) =>
        match _get_plugins_to_install uc api fuel
                (PyList (split (cfg_plugins cfg))) with
        | None => (OutOfFuel, planned_world excluded w)
        | Some cp =>
            let existing := plugin_files PLUGINS (fs w) in
            let installed := listed_plugins (plugin_file_names repr cp) existing in
            let unlisted := existing ∖ installed in
            match _install_plugins uc api cfg PLUGINS to_install
                    (emit (EvMkdir PLUGINS) (planned_world excluded w)) with
            | (Ok _, w4) =>
                if bool_decide (unlisted = ∅)
                then (Ok (installed, excluded), emit EvRestart w4)
                else if String.eqb (remove_unlisted_plugins cfg) "yes"
                then match _remove_plugins unlisted w4 with
                     | (Ok _, w5) => (Ok (installed, excluded), emit EvRestart w5)
                     | (Raise e, w5) => (Raise e, w5)
                     | (OutOfFuel, w5) => (OutOfFuel, w5)
                     end
                else (Ok (installed, excluded),
                      emit EvRestart (emit (EvLog (unlisted_message unlisted)) w4))
            | (Raise e, w4) =>
                (Raise e,
                 emit (EvLog "Plugin installation failed, check logs for details")
                   w4)
            | (OutOfFuel, w4) => (OutOfFuel, w4)
            end
        end
    end.
Proof.
  unfold install, planned_world. unfold_monad. simpl.
  destruct (_get_plugins_to_install uc api fuel (requested plugins))
    as [[ti ex] |]; [| done].
  destruct (_get_plugins_to_install uc api fuel
              (PyList (split (cfg_plugins cfg)))) as [cp |];
    [| by destruct (negb (length ex =? 0))].
  destruct (negb (length ex =? 0)); simpl;
    (match goal with
     | |- context [_install_plugins uc api cfg PLUGINS ti ?w0] =>
         destruct (_install_plugins uc api cfg PLUGINS ti w0)
           as [[paths | e |] w4]
     end; simpl; try done;
     case_bool_decide; simpl; try done;
     destruct (String.eqb (remove_unlisted_plugins cfg) "yes"); simpl; try done;
     match goal with
     | |- context [_remove_plugins ?u ?w1] =>
         by destruct (_remove_plugins u w1) as [[[] | e |] w5]
     end).
Qed.

(** More fuel does not change an answer of the planner. *)
Lemma plan_fuel_mono (uc : UpdateCenter) (api : Api) (fuel : nat) :
  ∀ (plugins : iterable) (r : list string * list string),
    _get_plugins_to_install uc api fuel plugins = Some r →
    ∀ fuel' : nat, fuel ≤ fuel' →
      _get_plugins_to_install uc api fuel' plugins = Some r.
Proof.
  induction fuel as [| fuel IH]; intros plugins r; simpl; [done |].
  intros Hplan [| fuel'] Hle; [lia |]. simpl.
  destruct (eq_set plugins (get_plugins uc (iterate plugins))); [done |].
  apply IH; [done | lia].
Qed.

(** When no download raises, the batch of downloads returns. *)
Lemma install_plugins_returns (uc : UpdateCenter) (api : Api)
    (cfg : config) (PLUGINS : string)
    (Hnr : ∀ (p : string) (f : gmap string kind),
        ∃ (v : pyval) (f' : gmap string kind),
          download_plugin uc p PLUGINS f = (Ok v, f'))
    (plugins : list string) (w : world) :
  ∃ (paths : gset string) (w' : world),
    _install_plugins uc api cfg PLUGINS plugins w = (Ok paths, w').
Proof.
  unfold _install_plugins.
  unfold mbind at 1. unfold M_bind at 1. unfold bind at 1.
  unfold log at 1.
  unfold mbind at 1. unfold M_bind at 1. unfold bind at 1.
  match goal with
  | |- context [for_each plugins ∅ ?b ?w1] =>
      destruct (install_loop_returns uc api PLUGINS (plugins_auto_update cfg)
                  Hnr plugins ∅ w1)
        as (paths & w' & Hrun & _);
      [by apply not_elem_of_empty |]
  end.
  rewrite Hrun. unfold_monad. simpl. by eexists _, _.
Qed.

(** C4. A file [unused.jpi] in the plugin directory whose base name is not
    in the closure computed from the configured plugins list is unlisted.
    When the index answers with a superset of the names it is asked about
    and every other name it produces lies in a finite universe [U], there
    is a recursion depth [n], at most [size U + 2], from which both
    planning steps of [install] return, so that for every such depth:
    a run in which no download raises returns; and whenever the run
    returns, with [remove-unlisted-plugins] set to ["yes"] the file is gone
    from the directory, deleted by a call of [os.remove], while with
    ["no"] it is still there afterwards, no file has been removed, and the
    message the run logs about the unlisted plugins spells out the path of
    the file.  (Downloads are taken not to delete regular files.) *)
Theorem unused_plugin_reconciled (uc : UpdateCenter) (api : Api)
    (cfg : config) (PLUGINS : string) (repr : string → string)
    (plugins : option string) (w : world) (U : gset string)
    (Hsup : ∀ l : list string, list_to_set l ⊆ get_plugins uc l)
    (Hfin : ∀ l : list string, get_plugins uc l ⊆ list_to_set l ∪ U)
    (Hkeep : download_keeps_files uc)
    (Hfile : fs w !! (PLUGINS +:+ "/unused.jpi") = Some File)
    (Hnot : ∀ (fuel : nat) (cp : list string * list string),
        _get_plugins_to_install uc api fuel (PyList (split (cfg_plugins cfg)))
        = Some cp →
        "unused" ∉ cp.1) :
  ∃ n : nat,
    n ≤ size U + 2
    ∧ ∀ fuel : nat, n ≤ fuel →
        let run := install uc api cfg PLUGINS repr fuel plugins w in
        ((∀ (p : string) (f : gmap string kind),
            ∃ (v : pyval) (f' : gmap string kind),
              download_plugin uc p PLUGINS f = (Ok v, f')) →
         ∃ r : gset string * list string, run.1 = Ok r)
        ∧ (∀ r : gset string * list string,
             run.1 = Ok r →
             (remove_unlisted_plugins cfg = "yes" →
              fs run.2 !! (PLUGINS +:+ "/unused.jpi") = None
              ∧ EvRemove (PLUGINS +:+ "/unused.jpi") ∈ trace run.2)
             ∧ (remove_unlisted_plugins cfg = "no" →
                fs run.2 !! (PLUGINS +:+ "/unused.jpi") = Some File
                ∧ no_removal w run.2
                ∧ ∃ unlisted : gset string,
                    PLUGINS +:+ "/unused.jpi" ∈ unlisted
                    ∧ EvLog (unlisted_message unlisted) ∈ trace run.2
                    ∧ occurs_in (PLUGINS +:+ "/unused.jpi")
                        (unlisted_message unlisted))).
Proof.
  destruct (plan_converges uc api Hsup U Hfin (requested plugins))
    as (n1 & s1 & Hn1 & _ & _ & Hrun1).
  destruct (plan_converges uc api Hsup U Hfin
              (PyList (split (cfg_plugins cfg))))
    as (n2 & s2 & Hn2 & _ & _ & Hrun2).
  exists (n1 `max` n2). split; [lia |].
  intros fuel Hle run. split.
  - intros Hnr. subst run.
    rewrite install_unfold, Hrun1, Hrun2 by lia.
    destruct (_exclude_incompatible_plugins uc api (PySet s1)) as [ti ex].
    simpl.
    match goal with
    | |- context [_install_plugins uc api cfg PLUGINS ti ?w3] =>
        destruct (install_plugins_returns uc api cfg PLUGINS Hnr ti w3)
          as (paths & w4 & ->)
    end.
    case_bool_decide; [by eexists |].
    destruct (String.eqb (remove_unlisted_plugins cfg) "yes"); [| by eexists].
    match goal with
    | |- context [_remove_plugins ?u w4] =>
        destruct (remove_plugins_run u w4) as (w5 & -> & _)
    end.
    by eexists.
  - intros r Hok. subst run.
    destruct (install uc api cfg PLUGINS repr fuel plugins w) as [o w'] eqn:Hrun.
    simpl in Hok. subst o. simpl.
    exact (unused_reconciled_when_returned uc api cfg PLUGINS repr fuel
             plugins w w' r Hkeep Hfile (Hnot fuel) Hrun).
Qed.

(** The demo directory holds [unused.jpi]; [git] is configured, and the
    demo index never raises. *)
Lemma unused_plugin_reconciled_witness :
  (∃ r, (install Demo.uc Demo.api (Demo.cfg "yes") Demo.dir Demo.repr 5
           (Some "git") Demo.w0).1 = Ok r)
  ∧ (fs (install Demo.uc Demo.api (Demo.cfg "yes") Demo.dir Demo.repr 5
           (Some "git") Demo.w0).2
       !! (Demo.dir +:+ "/unused.jpi") = None)
  ∧ (fs (install Demo.uc Demo.api (Demo.cfg "no") Demo.dir Demo.repr 5
           (Some "git") Demo.w0).2
       !! (Demo.dir +:+ "/unused.jpi") = Some File)
  ∧ (∃ unlisted : gset string,
       EvLog (unlisted_message unlisted)
       ∈ trace (install Demo.uc Demo.api (Demo.cfg "no") Demo.dir Demo.repr 5
                  (Some "git") Demo.w0).2
       ∧ occurs_in (Demo.dir +:+ "/unused.jpi")
           (unlisted_message unlisted)).
Proof.
  assert (∀ remove (fuel : nat) (cp : list string * list string),
            _get_plugins_to_install Demo.uc Demo.api fuel
              (PyList (split (cfg_plugins (Demo.cfg remove)))) = Some cp →
            "unused" ∉ cp.1) as Hnot.
  { intros remove fuel cp Hcp.
    pose proof (plan_fuel_mono _ _ _ _ _ Hcp (fuel `max` 5)
                  ltac:(lia)) as Hbig.
    assert (_get_plugins_to_install Demo.uc Demo.api 5
              (PyList (split (cfg_plugins (Demo.cfg remove))))
            = Some (["git"; "scm-api"; "credentials"], []))
      as Hfive by (vm_compute; reflexivity).
    rewrite (plan_fuel_mono _ _ _ _ _ Hfive (fuel `max` 5) ltac:(lia)) in Hbig.
    injection Hbig as <-. simpl. clear.
    rewrite !elem_of_cons, elem_of_nil. by intros [? | [? | [? | ?]]]. }
  assert (∀ (p : string) (f : gmap string kind),
            ∃ (v : pyval) (f' : gmap string kind),
              download_plugin Demo.uc p Demo.dir f = (Ok v, f')) as Hnr.
  { intros p f. simpl. by eexists _, _. }
  assert (fs Demo.w0 !! (Demo.dir +:+ "/unused.jpi") = Some File) as Hfile
    by (vm_compute; reflexivity).
  destruct (unused_plugin_reconciled Demo.uc Demo.api (Demo.cfg "yes")
              Demo.dir Demo.repr (Some "git") Demo.w0 Demo.universe
              demo_superset demo_universe demo_keeps_files Hfile
              (Hnot "yes")) as (n & Hn & Hyes).
  destruct (unused_plugin_reconciled Demo.uc Demo.api (Demo.cfg "no")
              Demo.dir Demo.repr (Some "git") Demo.w0 Demo.universe
              demo_superset demo_universe demo_keeps_files Hfile
              (Hnot "no")) as (m & Hm & Hno).
  assert (size Demo.universe + 2 = 5) as Hsize by (vm_compute; reflexivity).
  destruct (Hyes 5 ltac:(lia)) as [Hret Hdel].
  destruct (Hno 5 ltac:(lia)) as [Hret' Hkept].
  destruct (Hret Hnr) as [r Hr].
  destruct (Hret' Hnr) as [r' Hr'].
  destruct (Hdel r Hr) as [Hgone _].
  destruct (Hkept r' Hr') as [_ Hstay].
  destruct (Hgone eq_refl) as [Hnone _].
  destruct (Hstay eq_refl) as (Hsome & _ & unlisted & _ & Hlog & Hocc).
  split; [exists r; exact Hr |]. split; [exact Hnone |]. split; [exact Hsome |].
  exists unlisted; split; [exact Hlog | exact Hocc].
Defined.

Lemma remove_each_trace (l : list string) :
  ∀ w : world,
    ∃ new : list event,
      trace (for_each l tt (λ path _, _remove_plugin path) w).2
      = trace w ++ new
      ∧ Forall (λ e, is_log e ∨ ∃ x, e = EvRemove x ∧ x ∈ l) new.
Proof.
  induction l as [| x l IH]; intros w; simpl.
  - exists []. by rewrite app_nil_r.
  - unfold mbind, M_bind, bind. rewrite remove_plugin_run.
    case_bool_decide as Hx.
    + match goal with
      | |- context [for_each l tt ?b ?w1] =>
          destruct (IH w1) as (new & Hnew & Hall)
      end.
      eexists (_ :: _ :: new). split.
      * rewrite Hnew. simpl. by rewrite <- !app_assoc.
      * constructor; [left; by eexists |].
        constructor; [right; exists x; split; [done | by left] |].
        eapply Forall_impl; [exact Hall |].
        intros e [He | (y & -> & Hy)]; [by left | right].
        exists y. split; [done | by right].
    + destruct (IH w) as (new & Hnew & Hall). exists new. split; [done |].
      eapply Forall_impl; [exact Hall |].
      intros e [He | (y & -> & Hy)]; [by left | right].
      exists y. split; [done | by right].
Qed.

Lemma remove_plugins_trace (paths : gset string) (w : world) :
  ∃ new : list event,
    trace (_remove_plugins paths w).2 = trace w ++ new
    ∧ Forall (removal_step paths) new.
Proof.
  unfold _remove_plugins.
  destruct (remove_each_trace (elements paths) w) as (new & Hnew & Hall).
  exists new. split; [done |].
  eapply Forall_impl; [exact Hall |].
  intros e [He | (y & -> & Hy)]; [by left | right].
  exists y. split; [done | by apply elem_of_elements].
Qed.

Lemma planned_world_trace (excluded : list string) (w : world) :
  fs (planned_world excluded w) = fs w
  ∧ ∃ logs : list event,
      trace (planned_world excluded w) = trace w ++ logs
      ∧ Forall is_log logs.
Proof.
  unfold planned_world. destruct (negb (length excluded =? 0)); simpl.
  - split; [done |]. eexists [_; _]. split; [by rewrite <- app_assoc |].
    repeat constructor; by eexists.
  - split; [done |]. eexists [_]. split; [done |].
    repeat constructor; by eexists.
Qed.

(** The calls of a run of [install], phase by phase: the log lines of the
    planning, then, if both plans were obtained, the creation of the
    directory, the batch of downloads and what follows it. *)
Lemma install_events (uc : UpdateCenter) (api : Api) (cfg : config)
    (PLUGINS : string) (repr : string → string) (fuel : nat)
    (plugins : option string) (w : world)
    (o : outcome (gset string * list string)) (w' : world) :
  install uc api cfg PLUGINS repr fuel plugins w = (o, w') →
  (o = OutOfFuel ∧ fs w' = fs w
   ∧ ∃ logs, trace w' = trace w ++ logs ∧ Forall is_log logs)
  ∨ ∃ (ti ex : list string) (cp : list string * list string)
      (o1 : outcome (gset string)) (w3 w4 : world)
      (logs batch rest : list event),
      _get_plugins_to_install uc api fuel (requested plugins) = Some (ti, ex)
      ∧ _get_plugins_to_install uc api fuel (PyList (split (cfg_plugins cfg)))
        = Some cp
      ∧ fs w3 = fs w
      ∧ _install_plugins uc api cfg PLUGINS ti w3 = (o1, w4)
      ∧ trace w4 = trace w3 ++ batch
      ∧ trace w' = trace w ++ (logs ++ [EvMkdir PLUGINS]) ++ batch ++ rest
      ∧ Forall is_log logs
      ∧ match o1 with
        | Ok _ =>
            let existing := plugin_files PLUGINS (fs w) in
            let installed :=
              listed_plugins (plugin_file_names repr cp) existing in
            ∃ removal : list event,
              o = Ok (installed, ex)
              ∧ rest = removal ++ [EvRestart]
              ∧ Forall (removal_step (existing ∖ installed)) removal
              ∧ (String.eqb (remove_unlisted_plugins cfg) "yes" = false →
                 Forall is_log removal ∧ fs w' = fs w4)
              ∧ (String.eqb (remove_unlisted_plugins cfg) "yes" = true →
                 fs w' = fs (_remove_plugins (existing ∖ installed) w4).2)
        | Raise e =>
            o = Raise e
            ∧ rest = [EvLog "Plugin installation failed, check logs for details"]
            ∧ fs w' = fs w4
        | OutOfFuel => o = OutOfFuel ∧ rest = [] ∧ fs w' = fs w4
        end.
Proof.
  rewrite install_unfold.
  destruct (_get_plugins_to_install uc api fuel (requested plugins))
    as [[ti ex] |] eqn:Hplan.
  2: { intros [= <- <-]. left. split; [done |]. split; [done |].
       eexists [_]. split; [done |]. repeat constructor; by eexists. }
  destruct (planned_world_trace ex w) as (Hfs & logs & Htr & Hlogs).
  destruct (_get_plugins_to_install uc api fuel
              (PyList (split (cfg_plugins cfg)))) as [cp |] eqn:Hconf.
  2: { intros [= <- <-]. left. split; [done |]. split; [done |]. by exists logs. }
  simpl.
  destruct (_install_plugins uc api cfg PLUGINS ti
              (emit (EvMkdir PLUGINS) (planned_world ex w)))
    as [o1 w4] eqn:Hinst.
  destruct (install_plugins_trace _ _ _ _ _ _ _ _ Hinst)
    as (batch & Hbatch & _).
  intros Hrun. right.
  exists ti, ex, cp, o1, (emit (EvMkdir PLUGINS) (planned_world ex w)), w4.
  assert (trace w4 = trace w ++ (logs ++ [EvMkdir PLUGINS]) ++ batch) as Hw4.
  { rewrite Hbatch. simpl. rewrite Htr. by rewrite <- !app_assoc. }
  destruct o1 as [paths | e |].
  - case_bool_decide as Hunl.
    + injection Hrun as <- <-.
      exists logs, batch, [EvRestart].
      repeat (split; [done |]). split.
      { simpl. rewrite Hw4. by rewrite <- !app_assoc. }
      split; [done |]. exists []. simpl. rewrite Hunl.
      split; [done |]. split; [done |]. split; [done |]. split; [done |].
      intros _. unfold _remove_plugins. by rewrite elements_empty.
    + destruct (String.eqb (remove_unlisted_plugins cfg) "yes") eqn:Hyes.
      * set (unlisted := plugin_files PLUGINS (fs w)
               ∖ listed_plugins (plugin_file_names repr cp)
                   (plugin_files PLUGINS (fs w))) in *.
        destruct (remove_plugins_run unlisted w4) as (w5 & Hrm & _).
        destruct (remove_plugins_trace unlisted w4) as (removal & Hrmt & Hall).
        rewrite Hrm in *. simpl in Hrmt. injection Hrun as <- <-.
        exists logs, batch, (removal ++ [EvRestart]).
        repeat (split; [done |]). split.
        { simpl. rewrite Hrmt, Hw4. by rewrite <- !app_assoc. }
        split; [done |]. exists removal.
        split; [done |]. split; [done |]. split; [done |]. split; [done |].
        by intros _.
      * injection Hrun as <- <-.
        eexists logs, batch, ([_] ++ [EvRestart]).
        repeat (split; [done |]). split.
        { simpl. rewrite Hw4. by rewrite <- !app_assoc. }
        split; [done |]. eexists [_].
        split; [done |]. split; [done |]. split.
        { constructor; [left; by eexists | done]. }
        split; [| done]. intros _. split; [| done].
        constructor; [by eexists | done].
  - injection Hrun as <- <-. eexists logs, batch, [_].
    repeat (split; [done |]). split.
    { simpl. rewrite Hw4. by rewrite <- !app_assoc. }
    done.
  - injection Hrun as <- <-. exists logs, batch, [].
    repeat (split; [done |]). split.
    { rewrite Hw4. by rewrite app_nil_r. }
    done.
Qed.

Lemma downloads_of_logs (t : list event) :
  Forall is_log t → downloads_of t = [].
Proof.
  induction 1 as [| e t [x ->] _ IH]; [done |]. simpl. exact IH.
Qed.

Lemma downloads_of_removal (paths : gset string) (t : list event) :
  Forall (removal_step paths) t → downloads_of t = [].
Proof.
  induction 1 as [| e t He _ IH]; [done |].
  destruct He as [[x ->] | (x & -> & _)]; simpl; exact IH.
Qed.

Lemma elem_of_downloads_of (t : list event) (p d : string) :
  EvDownload p d ∈ t → p ∈ downloads_of t.
Proof.
  intros Hin. unfold downloads_of. apply list_elem_of_omap.
  by exists (EvDownload p d).
Qed.

Lemma batch_of_run (uc : UpdateCenter) (api : Api) (cfg : config)
    (PLUGINS : string) (ti : list string) (w3 w4 : world)
    (o1 : outcome (gset string)) (batch : list event) :
  _install_plugins uc api cfg PLUGINS ti w3 = (o1, w4) →
  trace w4 = trace w3 ++ batch →
  Forall (install_step PLUGINS) batch
  ∧ downloads_of batch
      `prefix_of` filter (λ p, wants_download uc api
                                 (plugins_auto_update cfg) p = true) ti
  ∧ (∀ paths, o1 = Ok paths →
       downloads_of batch
       = filter (λ p, wants_download uc api
                        (plugins_auto_update cfg) p = true) ti
       ∧ last batch = Some (EvChownr PLUGINS))
  ∧ ((∀ paths, o1 ≠ Ok paths) → EvChownr PLUGINS ∉ batch).
Proof.
  intros Hinst Htr.
  apply install_plugins_trace in Hinst as (new & Hnew & Hall & Hrest).
  rewrite Hnew in Htr. apply app_inv_head in Htr as ->. done.
Qed.


(** X6. A run of [install] that returns has restarted Jenkins exactly once,
    as its very last call, after creating the plugin directory; the
    downloads it made are those of the plugins to install that are not
    installed or are due an update, in the order of the plan; and the
    second component returned is the excluded list of the plan. *)
Theorem install_success (uc : UpdateCenter) (api : Api) (cfg : config)
    (PLUGINS : string) (repr : string → string) (fuel : nat)
    (plugins : option string) (w : world)
    (installed : gset string) (excluded : list string)
    (Hok : (install uc api cfg PLUGINS repr fuel plugins w).1
           = Ok (installed, excluded)) :
  let w' := (install uc api cfg PLUGINS repr fuel plugins w).2 in
  ∃ (before : list event) (to_install : list string),
    trace w' = trace w ++ before ++ [EvRestart]
    ∧ (EvRestart ∉ before)
    ∧ (EvMkdir PLUGINS ∈ before)
    ∧ _get_plugins_to_install uc api fuel (requested plugins)
      = Some (to_install, excluded)
    ∧ downloads_of before
      = filter (λ p, wants_download uc api (plugins_auto_update cfg) p = true)
               to_install.
Proof.
  destruct (install uc api cfg PLUGINS repr fuel plugins w) as [o w'] eqn:Hrun.
  simpl in Hok. subst o. simpl.
  apply install_events in Hrun
    as [(Ho & _) | (ti & ex & cp & o1 & w3 & w4 & logs & batch & rest
                    & Hplan & _ & _ & Hinst & Hb & Htr & Hlogs & Hcase)];
    [done |].
  destruct (batch_of_run _ _ _ _ _ _ _ _ _ Hinst Hb) as (Hall & _ & Hdone & _).
  destruct o1 as [paths | e' |];
    [| by destruct Hcase as (Ho & _) | by destruct Hcase as (Ho & _)].
  destruct Hcase as (removal & Ho & -> & Hrem & _).
  injection Ho as -> ->.
  destruct (Hdone paths eq_refl) as [Hdl _].
  exists ((logs ++ [EvMkdir PLUGINS]) ++ batch ++ removal), ti.
  split; [by rewrite Htr, <- !app_assoc |].
  rewrite Forall_forall in Hlogs. rewrite Forall_forall in Hall.
  rewrite Forall_forall in Hrem.
  split; [| split; [| split; [done |]]].
  - rewrite !elem_of_app, list_elem_of_singleton.
    intros [[Hx | Hx] | [Hx | Hx]]; [| done | |].
    + by destruct (Hlogs _ Hx) as [x Hx'].
    + by destruct (Hall _ Hx) as [[x [Hx' | Hx']] | Hx'].
    + by destruct (Hrem _ Hx) as [[x Hx'] | (x & Hx' & _)].
  - rewrite !elem_of_app, list_elem_of_singleton. left. by right.
  - rewrite !downloads_of_app.
    rewrite (downloads_of_logs logs) by (by apply Forall_forall).
    rewrite (downloads_of_removal _ removal) by (by apply Forall_forall).
    simpl. by rewrite app_nil_r.
Qed.

(** X7. Whatever the outcome, [install] only downloads into the plugin
    directory, and only plugins that pass the core-version test and are
    not installed or due an update: they are in the plan's list to install
    and never in its excluded list. *)
Theorem install_downloads_compatible (uc : UpdateCenter) (api : Api)
    (cfg : config) (PLUGINS : string) (repr : string → string) (fuel : nat)
    (plugins : option string) (w : world) :
  let w' := (install uc api cfg PLUGINS repr fuel plugins w).2 in
  ∃ new : list event,
    trace w' = trace w ++ new
    ∧ ∀ p d : string,
        EvDownload p d ∈ new →
        d = PLUGINS
        ∧ compatible uc api p = true
        ∧ wants_download uc api (plugins_auto_update cfg) p = true
        ∧ ∃ to_install excluded : list string,
            _get_plugins_to_install uc api fuel (requested plugins)
            = Some (to_install, excluded)
            ∧ p ∈ to_install ∧ p ∉ excluded.
Proof.
  destruct (install uc api cfg PLUGINS repr fuel plugins w) as [o w'] eqn:Hrun.
  simpl.
  apply install_events in Hrun
    as [(_ & _ & logs & Htr & Hlogs)
       | (ti & ex & cp & o1 & w3 & w4 & logs & batch & rest
          & Hplan & _ & _ & Hinst & Hb & Htr & Hlogs & Hcase)].
  { exists logs. split; [done |]. intros p d Hin.
    rewrite Forall_forall in Hlogs. by destruct (Hlogs _ Hin) as [x Hx]. }
  destruct (batch_of_run _ _ _ _ _ _ _ _ _ Hinst Hb) as (Hall & Hpre & _ & _).
  exists ((logs ++ [EvMkdir PLUGINS]) ++ batch ++ rest). split; [done |].
  intros p d Hin.
  assert (EvDownload p d ∈ batch) as Hbatch.
  { rewrite Forall_forall in Hlogs.
    rewrite !elem_of_app, list_elem_of_singleton in Hin.
    destruct Hin as [[Hx | Hx] | [Hx | Hx]]; [| done | done |].
    - by destruct (Hlogs _ Hx) as [x Hx'].
    - destruct o1 as [paths | e' |].
      + destruct Hcase as (removal & _ & -> & Hrem & _).
        rewrite Forall_forall in Hrem.
        apply elem_of_app in Hx as [Hx | Hx].
        * by destruct (Hrem _ Hx) as [[x Hx'] | (x & Hx' & _)].
        * by apply list_elem_of_singleton in Hx.
      + destruct Hcase as (_ & -> & _). by apply list_elem_of_singleton in Hx.
      + destruct Hcase as (_ & -> & _). by apply elem_of_nil in Hx. }
  assert (d = PLUGINS) as ->.
  { rewrite Forall_forall in Hall.
    destruct (Hall _ Hbatch) as [[x [Hx | Hx]] | Hx]; congruence. }
  split; [done |].
  apply elem_of_downloads_of in Hbatch.
  destruct Hpre as [k Hk].
  assert (p ∈ filter (λ p, wants_download uc api (plugins_auto_update cfg) p
                           = true) ti) as Hp.
  { rewrite Hk. apply elem_of_app. by left. }
  apply list_elem_of_filter in Hp as [Hw Hti].
  destruct (plan_lists uc api fuel _ _ _ Hplan)
    as (s & _ & Hti_eq & Hex_eq).
  assert (compatible uc api p = true) as Hc.
  { rewrite Hti_eq in Hti. by apply list_elem_of_filter in Hti as [Hc _]. }
  split; [done |]. split; [done |]. exists ti, ex.
  split; [done |]. split; [done |].
  rewrite Hex_eq. rewrite list_elem_of_filter. intros [Hn _]. congruence.
Qed.



Lemma endswith_tail (s a b : string) :
  endswith s (a +:+ b) = true → endswith s b = true.
Proof.
  unfold endswith. rewrite !bool_decide_eq_true, list_ascii_app.
  intros Hsuf. etrans; [| exact Hsuf]. by apply suffix_app_r.
Qed.

Lemma listed_ends_in_bracket (repr : string → string)
    (cp : list string * list string) (existing : gset string) (path : string) :
  path ∈ listed_plugins (plugin_file_names repr cp) existing →
  endswith path "].jpi" = true.
Proof.
  unfold listed_plugins. rewrite elem_of_filter. intros [Hends _].
  unfold plugin_file_names, endswith_any in Hends. simpl in Hends.
  assert (∀ l : list string,
            endswith path ("/" +:+ str_list repr l +:+ ".jpi") = true →
            endswith path "].jpi" = true) as Htail.
  { intros l Hl. unfold str_list in Hl.
    replace ("/" +:+ ("[" +:+ join ", " (map repr l) +:+ "]") +:+ ".jpi")
      with (("/[" +:+ join ", " (map repr l)) +:+ "].jpi") in Hl
      by (by rewrite !append_assoc).
    by apply endswith_tail in Hl. }
  rewrite orb_false_r in Hends.
  apply orb_true_iff in Hends as [Hl | Hl]; by apply Htail in Hl.
Qed.

(** X9. The names that decide which files are listed are built from the two
    lists of the plan as wholes, so they all end in ["].jpi"]: the set
    returned by [install] holds no other path, and with removal enabled
    every regular file that the listing found and whose name does not end
    that way is gone after a run that returns, whether or not its plugin
    is configured.  (Downloads are taken not to delete regular files.) *)
Theorem install_treats_plugin_files_as_unlisted (uc : UpdateCenter)
    (api : Api) (cfg : config) (PLUGINS : string) (repr : string → string)
    (fuel : nat) (plugins : option string) (w : world)
    (installed : gset string) (excluded : list string)
    (Hok : (install uc api cfg PLUGINS repr fuel plugins w).1
           = Ok (installed, excluded)) :
  let w' := (install uc api cfg PLUGINS repr fuel plugins w).2 in
  (∀ path : string, path ∈ installed → endswith path "].jpi" = true)
  ∧ (remove_unlisted_plugins cfg = "yes" →
     download_keeps_files uc →
     ∀ path : string,
       path ∈ plugin_files PLUGINS (fs w) →
       fs w !! path = Some File →
       endswith path "].jpi" = false →
       fs w' !! path = None ∧ EvRemove path ∈ trace w').
Proof.
  destruct (install uc api cfg PLUGINS repr fuel plugins w) as [o w'] eqn:Hrun.
  simpl in Hok. subst o. simpl.
  apply install_inv in Hrun
    as (ti & ex & cp & paths & w3 & w4 & _ & _ & Hfs3 & _ & Hinst & Hr & Hrec).
  injection Hr as -> ->. simpl in Hrec. split.
  - intros path. apply listed_ends_in_bracket.
  - intros Hyes Hkeep path Hex Hfile Hname.
    assert (path ∈ plugin_files PLUGINS (fs w)
                   ∖ listed_plugins (plugin_file_names repr cp)
                       (plugin_files PLUGINS (fs w))) as Hunl.
    { apply elem_of_difference. split; [done |]. intros Hl.
      apply listed_ends_in_bracket in Hl. congruence. }
    assert (fs w4 !! path = Some File) as Hfile4.
    { pose proof (install_plugins_keeps_files uc api cfg PLUGINS ti Hkeep w3)
        as Hk. rewrite Hinst in Hk. apply Hk. by rewrite Hfs3. }
    destruct Hrec as [[Hempty _] | [(_ & _ & w5 & Hrm & ->) | (_ & Hno & _)]];
      [| | done].
    + exfalso. rewrite Hempty in Hunl. by apply not_elem_of_empty in Hunl.
    + match type of Hrm with
      | _remove_plugins ?u _ = _ =>
          destruct (remove_plugins_run u w4) as (w5' & Hrm' & Hfs5 & Htr5)
      end.
      rewrite Hrm in Hrm'. injection Hrm' as <-. simpl. split.
      * rewrite Hfs5. by rewrite bool_decide_true.
      * apply elem_of_app. left. apply Htr5. by right.
Qed.

(** ** Backup and restore *)

Lemma within_b_app (dir rest : string) :
  within_b dir (dir +:+ rest) = relative_b rest.
Proof. unfold within_b. by rewrite strip_prefix_app. Qed.

Lemma within_b_self (dir : string) : within_b dir dir = true.
Proof.
  unfold within_b.
  assert (strip_prefix dir dir = Some "") as ->; [| done].
  induction dir as [| c s IH]; simpl; [done |]. by rewrite Ascii.eqb_refl.
Qed.

Lemma within_b_inv (dir p : string) :
  within_b dir p = true →
  ∃ rest, p = dir +:+ rest ∧ relative_b rest = true.
Proof.
  unfold within_b.
  destruct (strip_prefix dir p) as [rest |] eqn:Hstrip; [| done].
  intros Hrel. exists rest. split; [| done]. by apply strip_prefix_Some.
Qed.

Section BackupFacts.

Variable du : DirUtil.
Variable PLUGINS : string.
Variable PLUGINS_BACKUP : string.

Lemma backup_run (w : world) :
  backup du PLUGINS PLUGINS_BACKUP w
  = let '(r, f) := copy_tree du PLUGINS PLUGINS_BACKUP (fs w) in
    (r, set_fs f (emit (EvLog "Backing up plugins.") w)).
Proof. unfold backup, run_copy_tree. unfold_monad. done. Qed.

Lemma restore_run (w : world) :
  restore du PLUGINS PLUGINS_BACKUP w
  = let w1 := emit (EvLog "Restoring plugins from backup.") w in
    match remove_tree du PLUGINS (fs w) with
    | (Ok _, f1) =>
        match copy_tree du PLUGINS_BACKUP PLUGINS f1 with
        | (Ok _, f2) => shutil_chown PLUGINS (set_fs f2 w1)
        | (Raise e, f2) => (Raise e, set_fs f2 w1)
        | (OutOfFuel, f2) => (OutOfFuel, set_fs f2 w1)
        end
    | (Raise e, f1) => (Raise e, set_fs f1 w1)
    | (OutOfFuel, f1) => (OutOfFuel, set_fs f1 w1)
    end.
Proof.
  unfold restore, run_copy_tree, run_remove_tree. unfold_monad. simpl.
  destruct (remove_tree du PLUGINS (fs w)) as [[[] | e |] f1]; simpl; try done.
  by destruct (copy_tree du PLUGINS_BACKUP PLUGINS f1) as [[[] | e |] f2].
Qed.

Hypothesis Hclears : remove_tree_clears du.

(** X12. Backup and restore undo what happened in between: if the backup
    is taken while nothing is at the backup directory, and the backup is
    left alone until the restore, then after the restore the tree at and
    below the plugin directory is what it was when the backup was taken,
    and nothing outside it has changed since the restore began.  (For tree
    operations that meet what is asked of them above, and two directories
    that do not contain one another.) *)
Theorem restore_round_trip (w0 w1 w2 w3 : world) :
  copy_tree_copies du →
  separate PLUGINS PLUGINS_BACKUP →
  (∀ p, within_b PLUGINS_BACKUP p = true → fs w0 !! p = None) →
  backup du PLUGINS PLUGINS_BACKUP w0 = (Ok tt, w1) →
  (∀ p, within_b PLUGINS_BACKUP p = true → fs w2 !! p = fs w1 !! p) →
  restore du PLUGINS PLUGINS_BACKUP w2 = (Ok tt, w3) →
  (∀ p, within_b PLUGINS p = true → fs w3 !! p = fs w0 !! p)
  ∧ (∀ p, within_b PLUGINS p = false → fs w3 !! p = fs w2 !! p).
Proof.
  intros Hcopies Hsep Hfresh Hbackup Hkept Hrestore.
  rewrite backup_run in Hbackup.
  destruct (copy_tree du PLUGINS PLUGINS_BACKUP (fs w0)) as [r f1] eqn:Hc1.
  injection Hbackup as -> <-. simpl in Hkept.
  destruct (Hcopies _ _ _ _ Hfresh Hc1) as [Hsaved _].
  rewrite restore_run in Hrestore. simpl in Hrestore.
  destruct (remove_tree du PLUGINS (fs w2)) as [[[] | e |] f3] eqn:Hr;
    [| done | done].
  destruct (Hclears _ _ _ Hr) as [Hgone Hrest].
  destruct (copy_tree du PLUGINS_BACKUP PLUGINS f3) as [[[] | e |] f4] eqn:Hc2;
    [| done | done].
  destruct (Hcopies _ _ _ _ Hgone Hc2) as [Hback Hother].
  unfold shutil_chown in Hrestore. simpl in Hrestore.
  case_bool_decide; [| done]. injection Hrestore as <-. simpl.
  split.
  - intros p Hp. apply within_b_inv in Hp as (rest & -> & Hrel).
    rewrite (Hback rest Hrel).
    assert (within_b PLUGINS_BACKUP (PLUGINS_BACKUP +:+ rest) = true) as Hin
      by by rewrite within_b_app.
    rewrite Hrest.
    + rewrite (Hkept _ Hin). by apply Hsaved.
    + destruct (within_b PLUGINS (PLUGINS_BACKUP +:+ rest)) eqn:Hw; [| done].
      by destruct (Hsep _ Hw Hin).
  - intros p Hp. rewrite (Hother p Hp). by apply Hrest.
Qed.

Lemma restore_wipes (w : world) :
  copy_tree_needs_source du →
  within_b PLUGINS PLUGINS_BACKUP = false →
  fs w !! PLUGINS_BACKUP ≠ Some Dir →
  (remove_tree du PLUGINS (fs w)).1 = Ok tt →
  ∃ e : exn,
    (restore du PLUGINS PLUGINS_BACKUP w).1 = Raise e
    ∧ ∀ p, within_b PLUGINS p = true →
           fs (restore du PLUGINS PLUGINS_BACKUP w).2 !! p = None.
Proof.
  intros Hneeds Hout Hnone Hremoved. rewrite restore_run.
  destruct (remove_tree du PLUGINS (fs w)) as [r f1] eqn:Hr.
  simpl in Hremoved. subst r.
  destruct (Hclears _ _ _ Hr) as [Hgone Hrest].
  destruct (Hneeds PLUGINS_BACKUP PLUGINS f1) as [e He].
  { by rewrite (Hrest _ Hout). }
  rewrite He. simpl. by exists e.
Qed.

End BackupFacts.

(** X13. [restore] removes the plugin directory before it looks at the
    backup: when there is no backup directory, it raises, and by then
    nothing is left at or below the plugin directory. *)
Theorem restore_missing_backup (du : DirUtil)
    (PLUGINS PLUGINS_BACKUP : string) (w : world)
    (Hclears : remove_tree_clears du)
    (Hneeds : copy_tree_needs_source du)
    (Hout : within_b PLUGINS PLUGINS_BACKUP = false)
    (Hnone : fs w !! PLUGINS_BACKUP ≠ Some Dir)
    (Hremoved : (remove_tree du PLUGINS (fs w)).1 = Ok tt) :
  ∃ e : exn,
    (restore du PLUGINS PLUGINS_BACKUP w).1 = Raise e
    ∧ ∀ p, within_b PLUGINS p = true →
           fs (restore du PLUGINS PLUGINS_BACKUP w).2 !! p = None.
Proof.
  rewrite restore_run.
  destruct (remove_tree du PLUGINS (fs w)) as [r f1] eqn:Hr.
  simpl in Hremoved. subst r.
  destruct (Hclears _ _ _ Hr) as [Hgone Hrest].
  destruct (Hneeds PLUGINS_BACKUP PLUGINS f1) as [e He].
  { by rewrite (Hrest _ Hout). }
  rewrite He. simpl. by exists e.
Qed.

Lemma clean_backup_run (du : DirUtil) (PLUGINS_BACKUP : string) (w : world) :
  clean_backup du PLUGINS_BACKUP w
  = let '(r, f) := remove_tree du PLUGINS_BACKUP (fs w) in
    (r, set_fs f (emit (EvLog "Cleaning up backup plugins.") w)).
Proof. unfold clean_backup, run_remove_tree. unfold_monad. done. Qed.

(** X14. Once [clean_backup] has run, a [restore] is destructive: it
    removes the plugin directory, finds no backup to copy and raises,
    leaving nothing at or below the plugin directory. *)
Theorem restore_after_clean_backup (du : DirUtil)
    (PLUGINS PLUGINS_BACKUP : string) (w w1 : world)
    (Hclears : remove_tree_clears du)
    (Hneeds : copy_tree_needs_source du)
    (Hout : within_b PLUGINS PLUGINS_BACKUP = false)
    (Hclean : clean_backup du PLUGINS_BACKUP w = (Ok tt, w1))
    (Hremoved : (remove_tree du PLUGINS (fs w1)).1 = Ok tt) :
  ∃ e : exn,
    (restore du PLUGINS PLUGINS_BACKUP w1).1 = Raise e
    ∧ ∀ p, within_b PLUGINS p = true →
           fs (restore du PLUGINS PLUGINS_BACKUP w1).2 !! p = None.
Proof.
  rewrite clean_backup_run in Hclean.
  destruct (remove_tree du PLUGINS_BACKUP (fs w)) as [r f] eqn:Hr.
  injection Hclean as -> <-.
  destruct (Hclears _ _ _ Hr) as [Hgone _].
  apply (restore_wipes du PLUGINS PLUGINS_BACKUP Hclears _ Hneeds Hout);
    [| done].
  simpl. rewrite (Hgone PLUGINS_BACKUP); [done |]. apply within_b_self.
Qed.

(** X15. [restore] cannot bring back a plugin directory that is missing:
    when [remove_tree] raises for want of the directory, [restore] raises
    too, the backup is not copied and the file system is left as it was. *)
Theorem restore_missing_directory (du : DirUtil)
    (PLUGINS PLUGINS_BACKUP : string) (w : world) :
  remove_tree_needs_dir du →
  fs w !! PLUGINS ≠ Some Dir →
  ∃ e : exn,
    (restore du PLUGINS PLUGINS_BACKUP w).1 = Raise e
    ∧ fs (restore du PLUGINS PLUGINS_BACKUP w).2 = fs w.
Proof.
  intros Hneeds Hnone. rewrite restore_run.
  destruct (Hneeds PLUGINS (fs w) Hnone) as [e He]. rewrite He. simpl.
  by exists e.
Qed.

(** The demo tree operations meet what is asked of them. *)
Lemma demo_remove_clears : remove_tree_clears DemoTree.du.
Proof.
  intros dir f f' Hrun. simpl in Hrun. unfold DemoTree.remove in Hrun.
  case_bool_decide; [| done]. injection Hrun as <-. split; intros p Hp.
  - apply map_lookup_filter_None. right. intros k _. simpl. congruence.
  - destruct (f !! p) as [k |] eqn:Hk.
    + by apply map_lookup_filter_Some.
    + apply map_lookup_filter_None. by left.
Qed.

Lemma demo_remove_needs_dir : remove_tree_needs_dir DemoTree.du.
Proof.
  intros dir f Hnone. simpl. unfold DemoTree.remove.
  rewrite bool_decide_false by done. by eexists.
Qed.

Lemma demo_copy_needs_source : copy_tree_needs_source DemoTree.du.
Proof.
  intros src dst f Hnone. simpl. unfold DemoTree.copy.
  rewrite bool_decide_false by done. by eexists.
Qed.

Lemma demo_copy_fold (src dst : string) (f : gmap string kind) :
  ∀ m : gmap string kind,
    (∀ rest, relative_b rest = true →
       map_fold (DemoTree.copy_entry src dst) f m !! (dst +:+ rest)
       = match m !! (src +:+ rest) with
         | Some k => Some k
         | None => f !! (dst +:+ rest)
         end)
    ∧ (∀ p, within_b dst p = false →
         map_fold (DemoTree.copy_entry src dst) f m !! p = f !! p).
Proof.
  apply (map_fold_weak_ind
           (λ acc m,
              (∀ rest, relative_b rest = true →
                 acc !! (dst +:+ rest)
                 = match m !! (src +:+ rest) with
                   | Some k => Some k
                   | None => f !! (dst +:+ rest)
                   end)
              ∧ (∀ p, within_b dst p = false → acc !! p = f !! p))).
  - split; [| done]. intros rest _. by rewrite lookup_empty.
  - intros i x m acc Hfresh [Hin Hout]. unfold DemoTree.copy_entry.
    destruct (strip_prefix src i) as [rest0 |] eqn:Hstrip.
    + apply strip_prefix_Some in Hstrip as ->.
      destruct (relative_b rest0) eqn:Hrel0.
      * split.
        -- intros rest Hrel. destruct (decide (rest = rest0)) as [-> | Hne].
           ++ by rewrite !lookup_insert_eq.
           ++ rewrite !lookup_insert_ne by (intros Heq; by simplify_eq).
              by apply Hin.
        -- intros p Hp. rewrite lookup_insert_ne; [by apply Hout |].
           intros <-. rewrite within_b_app in Hp. congruence.
      * split; [| done]. intros rest Hrel.
        rewrite lookup_insert_ne; [by apply Hin |].
        intros Heq. simplify_eq. congruence.
    + split; [| done]. intros rest Hrel.
      rewrite lookup_insert_ne; [by apply Hin |].
      intros ->. by rewrite strip_prefix_app in Hstrip.
Qed.

Lemma demo_copy_copies : copy_tree_copies DemoTree.du.
Proof.
  intros src dst f f' Hfresh Hrun. simpl in Hrun. unfold DemoTree.copy in Hrun.
  case_bool_decide; [| done]. injection Hrun as <-.
  destruct (demo_copy_fold src dst f f) as [Hin Hout]. split; [| done].
  intros rest Hrel. rewrite (Hin rest Hrel).
  rewrite (Hfresh (dst +:+ rest)) by by rewrite within_b_app.
  by destruct (f !! (src +:+ rest)).
Qed.

Lemma demo_separate : separate DemoTree.live DemoTree.saved.
Proof.
  intros p H1 H2.
  apply within_b_inv in H1 as (r1 & -> & Hr1).
  apply within_b_inv in H2 as (r2 & Heq & Hr2).
  change DemoTree.saved with (DemoTree.live +:+ "-backup") in Heq.
  rewrite append_assoc in Heq. by simplify_eq.
Qed.

(** ** Construction: the proxy *)

Lemma nonempty_spec (s : string) : nonempty s = true ↔ s ≠ "".
Proof.
  unfold nonempty. simpl. rewrite negb_true_iff. apply String.eqb_neq.
Qed.

Lemma set_proxy_run (cfg : config) (w : world) :
  ∃ msg : string,
    set_proxy cfg w
    = (Ok tt,
       set_environ
         (match proxy_address cfg with
          | Some a => <["http_proxy" := a]> (environ w)
          | None => delete "http_proxy" (environ w)
          end)
         (emit (EvLog msg) w)).
Proof.
  unfold set_proxy.
  destruct (proxy_address cfg) as [a |] eqn:Ha.
  - assert (nonempty a = true) as ->.
    { unfold proxy_address in Ha.
      destruct (nonempty (proxy_hostname cfg) && nonempty (proxy_port cfg));
        [| done].
      destruct (nonempty (proxy_username cfg) && nonempty (proxy_password cfg));
        by injection Ha as <-. }
    eexists. unfold_monad. unfold setenv. done.
  - eexists. unfold_monad. unfold popenv. done.
Qed.

Lemma init_world (cfg : config) (urlopen : string → outcome unit)
    (new_UpdateCenter : option string → outcome UpdateCenter) (w : world) :
  (__init__ cfg urlopen new_UpdateCenter w).2 = (set_proxy cfg w).2.
Proof.
  unfold __init__. destruct (set_proxy_run cfg w) as [msg Hrun].
  unfold mbind at 1. unfold M_bind at 1. unfold bind at 1. rewrite Hrun.
  simpl. unfold lift.
  destruct (String.eqb (plugins_site cfg)
              "https://updates.jenkins-ci.org/latest/"); [done |].
  unfold_monad.
  destruct (urlopen _) as [[] | [] |]; simpl; try done;
    by destruct (new_UpdateCenter _) as [u | [] |].
Qed.

(** X10. The constructor leaves the proxy of the process as the configuration
    says, whether or not it goes on to raise: without a host name or a
    port [http_proxy] is unset, also when an earlier configuration had set
    it; with both, it is set to the address, which carries credentials only
    when user name and password are both given.  No other variable and no
    file is touched. *)
Theorem init_proxy_environment (cfg : config)
    (urlopen : string → outcome unit)
    (new_UpdateCenter : option string → outcome UpdateCenter) (w : world) :
  let w' := (__init__ cfg urlopen new_UpdateCenter w).2 in
  (∀ k : string, k ≠ "http_proxy" → environ w' !! k = environ w !! k)
  ∧ fs w' = fs w
  ∧ (proxy_hostname cfg = "" ∨ proxy_port cfg = "" →
     environ w' !! "http_proxy" = None)
  ∧ (proxy_hostname cfg ≠ "" → proxy_port cfg ≠ "" →
     proxy_username cfg = "" ∨ proxy_password cfg = "" →
     environ w' !! "http_proxy"
     = Some ("http://" +:+ proxy_hostname cfg +:+ ":" +:+ proxy_port cfg))
  ∧ (proxy_hostname cfg ≠ "" → proxy_port cfg ≠ "" →
     proxy_username cfg ≠ "" → proxy_password cfg ≠ "" →
     environ w' !! "http_proxy"
     = Some ("http://" +:+ proxy_username cfg +:+ ":" +:+ proxy_password cfg
             +:+ "@" +:+ proxy_hostname cfg +:+ ":" +:+ proxy_port cfg)).
Proof.
  intros w'. subst w'. rewrite init_world.
  destruct (set_proxy_run cfg w) as [msg ->]. simpl.
  assert (∀ s, s = "" → nonempty s = false) as Hempty by (by intros s ->).
  assert (∀ s, s ≠ "" → nonempty s = true) as Hfull
    by (intros s; apply nonempty_spec).
  split; [| split; [done |]].
  { intros k Hk. destruct (proxy_address cfg).
    - by rewrite lookup_insert_ne.
    - by rewrite lookup_delete_ne. }
  unfold proxy_address. split; [| split].
  - intros [H | H]; rewrite (Hempty _ H); rewrite ?andb_false_r; simpl;
      by rewrite lookup_delete_eq.
  - intros Hh Hp [H | H];
      rewrite (Hfull _ Hh), (Hfull _ Hp), (Hempty _ H); rewrite ?andb_false_r;
      simpl; by rewrite lookup_insert_eq.
  - intros Hh Hp Hu Hpw.
    rewrite (Hfull _ Hh), (Hfull _ Hp), (Hfull _ Hu), (Hfull _ Hpw). simpl.
    by rewrite lookup_insert_eq.
Qed.

(** For the default plugin site the manifest is not fetched first: the
    constructor ends as the [UpdateCenter] constructor does, whatever
    [urlopen] would answer, and an error of that constructor is passed on
    as it is. *)
Lemma init_default_site (cfg : config)
    (urlopen : string → outcome unit)
    (new_UpdateCenter : option string → outcome UpdateCenter) (w : world)
    (Hsite : plugins_site cfg = "https://updates.jenkins-ci.org/latest/") :
  (__init__ cfg urlopen new_UpdateCenter w).1 = new_UpdateCenter None.
Proof.
  unfold __init__. destruct (set_proxy_run cfg w) as [msg Hrun].
  unfold mbind at 1. unfold M_bind at 1. unfold bind at 1. rewrite Hrun.
  rewrite Hsite. simpl. done.
Qed.

(** X11. Which errors the constructor translates.  For a plugin site other
    than the default one, [HTTPError] never escapes from it, whichever of
    the two steps raised it, and any other outcome of the two steps is its
    outcome; when the manifest cannot be fetched the client is not built,
    so that the outcome is the same for any [UpdateCenter] constructor.
    For the default site the manifest is not fetched, so that the outcome
    is the same for any [urlopen], and an [HTTPError] of the
    [UpdateCenter] constructor escapes as it is.  The client returned is
    always one the [UpdateCenter] constructor built, for the manifest of
    the configured site unless that is the default one. *)
Theorem init_error_translation (cfg : config)
    (urlopen : string → outcome unit)
    (new_UpdateCenter : option string → outcome UpdateCenter) (w : world) :
  let default := "https://updates.jenkins-ci.org/latest/" in
  let manifest := plugins_site cfg +:+ "/update-center.json" in
  let o := (__init__ cfg urlopen new_UpdateCenter w).1 in
  (plugins_site cfg ≠ default →
   o ≠ Raise HTTPError
   ∧ (urlopen manifest = Raise HTTPError → o = Raise PluginSiteError)
   ∧ (∀ e : exn, e ≠ HTTPError → urlopen manifest = Raise e → o = Raise e)
   ∧ ((∀ u : unit, urlopen manifest ≠ Ok u) →
      ∀ other : option string → outcome UpdateCenter,
        (__init__ cfg urlopen other w).1 = o)
   ∧ (∀ u : unit, urlopen manifest = Ok u →
      new_UpdateCenter (Some manifest) ≠ Raise HTTPError →
      o = new_UpdateCenter (Some manifest)))
  ∧ (plugins_site cfg = default →
     (∀ other : string → outcome unit,
        (__init__ cfg other new_UpdateCenter w).1 = o)
     ∧ (new_UpdateCenter None = Raise HTTPError → o = Raise HTTPError))
  ∧ (∀ update_center : UpdateCenter,
       o = Ok update_center →
       if String.eqb (plugins_site cfg) default
       then new_UpdateCenter None = Ok update_center
       else urlopen manifest = Ok tt
            ∧ new_UpdateCenter (Some manifest) = Ok update_center).
Proof.
  intros default manifest o. subst default manifest o.
  split; [| split].
  - intros Hsite. apply String.eqb_neq in Hsite.
    rewrite (init_custom_site_outcome _ _ _ _ Hsite).
    split; [| split; [| split; [| split]]].
    + destruct (urlopen _) as [[] | [] |]; try done;
        by destruct (new_UpdateCenter _) as [u | [] |].
    + by intros ->.
    + intros e He ->. by destruct e.
    + intros Hfail other.
      rewrite (init_custom_site_outcome _ _ other _ Hsite).
      destruct (urlopen _) as [u | e |]; [by destruct (Hfail u) | done | done].
    + intros u -> Hnew.
      by destruct (new_UpdateCenter _) as [uc | [] |].
  - intros Hsite. split.
    + intros other. by rewrite !init_default_site.
    + intros Hnew. by rewrite init_default_site.
  - intros update_center.
    destruct (String.eqb (plugins_site cfg)
                "https://updates.jenkins-ci.org/latest/") eqn:Hsite.
    + apply String.eqb_eq in Hsite. by rewrite init_default_site.
    + rewrite (init_custom_site_outcome _ _ _ _ Hsite).
      destruct (urlopen _) as [[] | [] |]; try done.
      by destruct (new_UpdateCenter _) as [u | [] |].
Qed.

(** ** The properties above on the demo objects *)

(** A site of one's own that answers with an error status, and one that
    cannot be reached. *)
Lemma init_error_translation_witness :
  (__init__ Demo.site_cfg Demo.answers_404 Demo.new_uc Demo.empty_world).1
  = Raise PluginSiteError
  ∧ (__init__ Demo.site_cfg Demo.no_route Demo.new_uc Demo.empty_world).1
    = Raise URLError.
Proof.
  assert (plugins_site Demo.site_cfg ≠ "https://updates.jenkins-ci.org/latest/")
    as Hsite by (intros Heq; discriminate Heq).
  destruct (init_error_translation Demo.site_cfg Demo.answers_404 Demo.new_uc
              Demo.empty_world) as [Hstatus _].
  destruct (init_error_translation Demo.site_cfg Demo.no_route Demo.new_uc
              Demo.empty_world) as [Hroute _].
  destruct (Hstatus Hsite) as (_ & Htranslated & _).
  destruct (Hroute Hsite) as (_ & _ & Hpassed & _).
  split; [exact (Htranslated eq_refl) |].
  refine (Hpassed URLError _ eq_refl). intros Heq; discriminate Heq.
Defined.

Lemma install_plugins_downloads_witness :
  ∃ new : list event,
    trace (_install_plugins Demo.uc Demo.api (Demo.cfg "no") Demo.dir
             ["git"; "instance-identity"; "scm-api"] Demo.empty_world).2
    = [] ++ new
    ∧ downloads_of new = ["git"; "scm-api"].
Proof.
  destruct (install_plugins_downloads Demo.uc Demo.api (Demo.cfg "no")
              Demo.dir ["git"; "instance-identity"; "scm-api"]
              Demo.empty_world) as (new & Htr & _ & Hok & _).
  exists new. split; [exact Htr |].
  assert (∃ paths,
            (_install_plugins Demo.uc Demo.api (Demo.cfg "no") Demo.dir
               ["git"; "instance-identity"; "scm-api"] Demo.empty_world).1
            = Ok paths) as [paths Hp] by (eexists; reflexivity).
  exact (proj1 (Hok paths Hp)).
Defined.



Lemma install_success_witness :
  ∃ before : list event,
    trace (install Demo.uc Demo.api (Demo.cfg "yes") Demo.dir Demo.repr
             5 (Some "git foo") Demo.w0).2 = [] ++ before ++ [EvRestart]
    ∧ downloads_of before = ["git"; "scm-api"; "credentials"].
Proof.
  assert ((install Demo.uc Demo.api (Demo.cfg "yes") Demo.dir Demo.repr
             5 (Some "git foo") Demo.w0).1 = Ok (∅, ["foo"])) as Hok
    by (vm_compute; reflexivity).
  destruct (install_success Demo.uc Demo.api (Demo.cfg "yes") Demo.dir
              Demo.repr 5 (Some "git foo") Demo.w0 _ _ Hok)
    as (before & ti & Htr & _ & _ & Hplan & Hdl).
  exists before. split; [exact Htr |].
  vm_compute in Hplan. injection Hplan as <-. exact Hdl.
Defined.

Lemma install_downloads_compatible_witness :
  compatible Demo.uc Demo.api "git" = true
  ∧ wants_download Demo.uc Demo.api false "git" = true.
Proof.
  destruct (install_downloads_compatible Demo.uc Demo.api (Demo.cfg "no")
              Demo.dir Demo.repr 5 (Some "git foo") Demo.empty_world)
    as (new & Htr & Hall).
  simpl in Htr.
  assert (EvDownload "git" Demo.dir ∈ new) as Hin.
  { rewrite <- Htr. apply list_elem_of_In. vm_compute. tauto. }
  destruct (Hall "git" Demo.dir Hin) as (_ & Hc & Hw & _).
  split; [exact Hc | exact Hw].
Defined.


Lemma install_treats_plugin_files_as_unlisted_witness :
  fs (install Demo.uc Demo.api (Demo.cfg "yes") Demo.dir Demo.repr 5
        (Some "git")
        {| fs := {[ "/var/lib/jenkins/plugins/git.jpi" := File ]};
           environ := ∅; trace := [] |}).2
    !! "/var/lib/jenkins/plugins/git.jpi" = None.
Proof.
  set (w := {| fs := {[ "/var/lib/jenkins/plugins/git.jpi" := File ]};
               environ := ∅; trace := [] |}).
  assert ((install Demo.uc Demo.api (Demo.cfg "yes") Demo.dir Demo.repr 5
             (Some "git") w).1 = Ok (∅, [])) as Hok
    by (vm_compute; reflexivity).
  destruct (install_treats_plugin_files_as_unlisted Demo.uc Demo.api
              (Demo.cfg "yes") Demo.dir Demo.repr 5 (Some "git") w _ _ Hok)
    as [_ Hgone].
  apply (Hgone eq_refl demo_keeps_files);
    [vm_compute; reflexivity | reflexivity | vm_compute; reflexivity].
Defined.

Lemma init_proxy_environment_witness :
  environ (__init__ Demo.proxy_cfg Demo.no_route Demo.new_uc
             {| fs := ∅; environ := {[ "http_proxy" := "http://old:1" ]};
                trace := [] |}).2 !! "http_proxy"
  = Some "http://proxy.example:3128".
Proof.
  destruct (init_proxy_environment Demo.proxy_cfg Demo.no_route Demo.new_uc
              {| fs := ∅; environ := {[ "http_proxy" := "http://old:1" ]};
                 trace := [] |}) as (_ & _ & _ & Hplain & _).
  apply Hplain; [discriminate | discriminate | by left].
Defined.

Lemma demo_no_backup_yet (p : string) :
  within_b DemoTree.saved p = true → fs DemoTree.w0 !! p = None.
Proof.
  intros Hp. apply not_elem_of_dom. intros Hd. simpl in Hd.
  rewrite dom_insert_L, dom_singleton_L in Hd.
  apply elem_of_union in Hd as [Hd | Hd]; apply elem_of_singleton in Hd;
    subst p; vm_compute in Hp; discriminate.
Qed.

Lemma restore_round_trip_witness :
  let w1 := (backup DemoTree.du DemoTree.live DemoTree.saved DemoTree.w0).2 in
  let w2 :=
    set_fs (<["/var/lib/jenkins/plugins/other.jpi" := File]>
              (delete "/var/lib/jenkins/plugins/git.jpi" (fs w1))) w1 in
  let w3 := (restore DemoTree.du DemoTree.live DemoTree.saved w2).2 in
  fs w3 !! "/var/lib/jenkins/plugins/git.jpi" = Some File
  ∧ fs w3 !! "/var/lib/jenkins/plugins/other.jpi" = None.
Proof.
  intros w1 w2 w3.
  assert (backup DemoTree.du DemoTree.live DemoTree.saved DemoTree.w0
          = (Ok tt, w1)) as Hb by (vm_compute; reflexivity).
  assert (restore DemoTree.du DemoTree.live DemoTree.saved w2
          = (Ok tt, w3)) as Hr by (vm_compute; reflexivity).
  assert (∀ p, within_b DemoTree.saved p = true → fs w2 !! p = fs w1 !! p)
    as Hkept.
  { intros p Hp. subst w2. simpl.
    rewrite lookup_insert_ne by (intros <-; vm_compute in Hp; discriminate).
    rewrite lookup_delete_ne by (intros <-; vm_compute in Hp; discriminate).
    done. }
  destruct (restore_round_trip DemoTree.du DemoTree.live DemoTree.saved
              demo_remove_clears DemoTree.w0 w1 w2 w3 demo_copy_copies
              demo_separate demo_no_backup_yet Hb Hkept Hr) as [Hlive _].
  split.
  - rewrite Hlive by (vm_compute; reflexivity). vm_compute. reflexivity.
  - rewrite Hlive by (vm_compute; reflexivity). vm_compute. reflexivity.
Defined.

Lemma restore_missing_backup_witness :
  ∃ e : exn,
    (restore DemoTree.du DemoTree.live DemoTree.saved DemoTree.w0).1 = Raise e
    ∧ fs (restore DemoTree.du DemoTree.live DemoTree.saved DemoTree.w0).2
        !! "/var/lib/jenkins/plugins/git.jpi" = None.
Proof.
  destruct (restore_missing_backup DemoTree.du DemoTree.live DemoTree.saved
              DemoTree.w0 demo_remove_clears demo_copy_needs_source)
    as (e & He & Hgone);
    [vm_compute; reflexivity | vm_compute; discriminate
     | vm_compute; reflexivity |].
  exists e. split; [exact He |]. apply Hgone. vm_compute. reflexivity.
Defined.

Lemma restore_missing_directory_witness :
  ∃ e : exn,
    (restore DemoTree.du DemoTree.live DemoTree.saved Demo.empty_world).1
    = Raise e
    ∧ fs (restore DemoTree.du DemoTree.live DemoTree.saved Demo.empty_world).2
      = fs Demo.empty_world.
Proof.
  apply (restore_missing_directory DemoTree.du DemoTree.live DemoTree.saved
           Demo.empty_world demo_remove_needs_dir).
  vm_compute. discriminate.
Defined.

Lemma restore_after_clean_backup_witness :
  let w1 := (backup DemoTree.du DemoTree.live DemoTree.saved DemoTree.w0).2 in
  let w2 := (clean_backup DemoTree.du DemoTree.saved w1).2 in
  ∃ e : exn,
    (restore DemoTree.du DemoTree.live DemoTree.saved w2).1 = Raise e
    ∧ fs (restore DemoTree.du DemoTree.live DemoTree.saved w2).2
        !! "/var/lib/jenkins/plugins/git.jpi" = None.
Proof.
  intros w1 w2.
  assert (clean_backup DemoTree.du DemoTree.saved w1 = (Ok tt, w2)) as Hc
    by (vm_compute; reflexivity).
  destruct (restore_after_clean_backup DemoTree.du DemoTree.live DemoTree.saved
              w1 w2 demo_remove_clears demo_copy_needs_source)
    as (e & He & Hgone);
    [vm_compute; reflexivity | exact Hc | vm_compute; reflexivity |].
  exists e. split; [exact He |]. apply Hgone. vm_compute. reflexivity.
Defined.

(** ** What the plugins argument does not decide *)

(** X16. The set that [install] returns is decided by the configured
    plugins list and by the plugin directory as it was found, not by the
    plugins argument: two runs from the same world that both return give
    the same first component, whatever they were asked to install. *)
Theorem install_result_ignores_argument (uc : UpdateCenter) (api : Api)
    (cfg : config) (PLUGINS : string) (repr : string → string) (fuel : nat)
    (plugins1 plugins2 : option string) (w : world)
    (installed1 installed2 : gset string) (excluded1 excluded2 : list string)
    (Hok1 : (install uc api cfg PLUGINS repr fuel plugins1 w).1
            = Ok (installed1, excluded1))
    (Hok2 : (install uc api cfg PLUGINS repr fuel plugins2 w).1
            = Ok (installed2, excluded2)) :
  installed1 = installed2.
Proof.
  destruct (install uc api cfg PLUGINS repr fuel plugins1 w) as [o1 w1] eqn:Hrun1.
  destruct (install uc api cfg PLUGINS repr fuel plugins2 w) as [o2 w2] eqn:Hrun2.
  simpl in Hok1, Hok2. subst o1 o2.
  apply install_inv in Hrun1
    as (ti1 & ex1 & cp1 & _ & _ & _ & _ & Hconf1 & _ & _ & _ & Hr1 & _).
  apply install_inv in Hrun2
    as (ti2 & ex2 & cp2 & _ & _ & _ & _ & Hconf2 & _ & _ & _ & Hr2 & _).
  rewrite Hconf1 in Hconf2. injection Hconf2 as <-.
  injection Hr1 as -> _. by injection Hr2 as -> _.
Qed.

(** A directory that holds a file called [[].jpi]: it is the one file
    the demo configuration lists, whatever is asked for. *)
Lemma install_result_ignores_argument_witness :
  let w := {| fs := {[ "/var/lib/jenkins/plugins/[].jpi" := File;
                       "/var/lib/jenkins/plugins/git.jpi" := File ]};
              environ := ∅; trace := [] |} in
  (install Demo.uc Demo.api (Demo.cfg "no") Demo.dir Demo.repr 5
     (Some "git") w).1
  = Ok ({[ "/var/lib/jenkins/plugins/[].jpi" ]}, [])
  ∧ ({[ "/var/lib/jenkins/plugins/[].jpi" ]} : gset string)
    = {[ "/var/lib/jenkins/plugins/[].jpi" ]}.
Proof.
  intros w.
  assert ((install Demo.uc Demo.api (Demo.cfg "no") Demo.dir Demo.repr 5
             (Some "git") w).1
          = Ok ({[ "/var/lib/jenkins/plugins/[].jpi" ]}, [])) as H1
    by (vm_compute; reflexivity).
  assert ((install Demo.uc Demo.api (Demo.cfg "no") Demo.dir Demo.repr 5
             (Some "foo") w).1
          = Ok ({[ "/var/lib/jenkins/plugins/[].jpi" ]}, ["foo"])) as H2
    by (vm_compute; reflexivity).
  split; [exact H1 |].
  exact (install_result_ignores_argument Demo.uc Demo.api (Demo.cfg "no")
           Demo.dir Demo.repr 5 (Some "git") (Some "foo") w _ _ _ _ H1 H2).
Defined.
